(** * BG Remover API (app.py): a shallow embedding and its properties

    The service is a Flask application with five routes.  Its handlers are
    embedded as functions in a small state-and-exception monad over the
    process state (the cached rembg session, the [outputs] directory, the
    logger).  The libraries the handlers call (rembg, Pillow, base64, uuid)
    are an interface, [Externals]: the properties are proved for all its
    implementations, and a small one, [Demo], runs the handlers on concrete
    requests. *)

From Stdlib Require Import String Ascii List ZArith Lia Bool.
From stdpp Require Import base option list gmap strings fin_maps.

Set Warnings "-register-all".

Local Open Scope string_scope.
Local Open Scope list_scope.

(** ** Values *)

Abbreviation bytes := (list Byte.byte).

(** A Python call either returns or raises; [Raise] carries [str(e)]. *)
Inductive result (A : Type) : Type :=
| Ok (a : A)
| Raise (msg : string).
Arguments Ok {A} a.
Arguments Raise {A} msg.

(** Python values that travel as JSON: what [request.get_json] returns and
    what [jsonify] receives.  Floats ([elapsed], JSON numbers with a
    fraction) carry no payload: wall-clock time is outside the model.
    A [JObj] lists the items of a Python dict; lookup takes the first
    binding of a key. *)
Inductive JValue : Type :=
| JNull
| JBool (b : bool)
| JInt (n : Z)
| JFloat
| JStr (s : string)
| JArr (items : list JValue)
| JObj (fields : list (string * JValue)).

(** [Image.save] targets used by the service. *)
Inductive ImgFormat : Type :=
| PNG
| WEBP (quality : Z).

(** Keyword arguments of [rembg.remove]. *)
Record RemoveOpts : Type := {
  alpha_matting : bool;
  alpha_matting_foreground_threshold : Z;
  alpha_matting_background_threshold : Z;
  alpha_matting_erode_size : Z
}.

(** The defaults of [rembg.remove], used by the batch route, which passes
    only [session]. *)
Definition remove_defaults : RemoveOpts :=
  {| alpha_matting := false;
     alpha_matting_foreground_threshold := 240;
     alpha_matting_background_threshold := 10;
     alpha_matting_erode_size := 10 |}.

(** ** The libraries behind the handlers *)

Class Externals : Type := {
  (** [os.environ.get("REMBG_MODEL")] at import time *)
  environ_REMBG_MODEL : option string;
  (** rembg *)
  Session : Type;
  new_session : string -> result Session;
  remove : bytes -> Session -> RemoveOpts -> result bytes;
  (** Pillow: [Image.open(io.BytesIO(b)).convert("RGBA")] and
      [img.save(target, fmt, ...)], which yields the encoded bytes *)
  Image : Type;
  image_open_rgba : bytes -> result Image;
  image_save : Image -> ImgFormat -> result bytes;
  (** what a save that raises has written to its target by then *)
  image_save_partial : Image -> ImgFormat -> bytes;
  (** base64 *)
  b64encode : bytes -> string;
  b64decode : string -> result bytes;
  (** [str(uuid.uuid4())] at the n-th draw of the process *)
  uuid4 : nat -> string
}.

(** ** Requests and responses *)

(** A werkzeug [FileStorage]. *)
Record Upload : Type := {
  up_filename : option string;
  up_content : bytes
}.

(** The parts of [flask.request] the handlers read.  [req_json] is the
    body parsed as JSON, [None] when it does not parse. *)
Record HttpRequest : Type := {
  req_files : list (string * Upload);
  req_is_json : bool;
  req_json : option JValue;
  req_args : list (string * string)
}.

Inductive Route : Type :=
| GetHome
| GetHealth
| PostRemove (r : HttpRequest)
| PostRemoveBatch (r : HttpRequest)
| GetDownload (file_id : string).

Inductive Body : Type :=
| BJson (v : JValue)
| BFile (content : bytes) (mimetype : option string)
        (download_name : string) (as_attachment : bool)
| BHtmlServerError.

Record Response : Type := {
  resp_status : nat;
  resp_body : Body
}.

(** [jsonify(v)] and [jsonify(v), code] *)
Definition jsonify (v : JValue) : Response :=
  {| resp_status := 200; resp_body := BJson v |}.

Definition jsonify_status (v : JValue) (code : nat) : Response :=
  {| resp_status := code; resp_body := BJson v |}.

Definition error_json (msg : string) : JValue := JObj [("error", JStr msg)].

(** [send_file(buf, mimetype=..., download_name=..., as_attachment=...)] *)
Definition send_file (content : bytes) (mimetype : option string)
    (download_name : string) (as_attachment : bool) : Response :=
  {| resp_status := 200;
     resp_body := BFile content mimetype download_name as_attachment |}.

(** What Flask answers when a view raises: 500 with its HTML error page. *)
Definition internal_server_error : Response :=
  {| resp_status := 500; resp_body := BHtmlServerError |}.

(** ** Python and Flask primitives *)

(** [str.lower] on the letters A to Z. *)
Definition lower_ascii (c : ascii) : ascii :=
  let n := nat_of_ascii c in
  if (65 <=? n)%nat && (n <=? 90)%nat then ascii_of_nat (n + 32) else c.

Fixpoint lower (s : string) : string :=
  match s with
  | EmptyString => EmptyString
  | String c s' => String (lower_ascii c) (lower s')
  end.

(** [needle in s] on two strings *)
Fixpoint str_contains (needle s : string) : bool :=
  String.prefix needle s ||
  match s with
  | EmptyString => false
  | String _ s' => str_contains needle s'
  end.

Definition is_jstr (key : string) (v : JValue) : bool :=
  match v with
  | JStr s => String.eqb s key
  | _ => false
  end.

Fixpoint assoc {A : Type} (key : string) (kvs : list (string * A)) : option A :=
  match kvs with
  | [] => None
  | (k, v) :: rest => if String.eqb k key then Some v else assoc key rest
  end.

Definition has_key {A : Type} (key : string) (kvs : list (string * A)) : bool :=
  match assoc key kvs with Some _ => true | None => false end.

(** [key in v] *)
Definition py_in (key : string) (v : JValue) : result bool :=
  match v with
  | JObj fields => Ok (has_key key fields)
  | JArr items => Ok (existsb (is_jstr key) items)
  | JStr s => Ok (str_contains key s)
  | JNull => Raise "argument of type 'NoneType' is not iterable"
  | JBool _ => Raise "argument of type 'bool' is not iterable"
  | JInt _ => Raise "argument of type 'int' is not iterable"
  | JFloat => Raise "argument of type 'float' is not iterable"
  end.

(** [v[key]] *)
Definition py_getitem (key : string) (v : JValue) : result JValue :=
  match v with
  | JObj fields =>
      match assoc key fields with
      | Some x => Ok x
      | None => Raise ("'" +:+ key +:+ "'")
      end
  | JArr _ => Raise "list indices must be integers or slices, not str"
  | JStr _ => Raise "string indices must be integers"
  | JNull => Raise "'NoneType' object is not subscriptable"
  | JBool _ => Raise "'bool' object is not subscriptable"
  | JInt _ => Raise "'int' object is not subscriptable"
  | JFloat => Raise "'float' object is not subscriptable"
  end.

(** [v.get(key, default)] *)
Definition py_get (key : string) (default : JValue) (v : JValue) : result JValue :=
  match v with
  | JObj fields =>
      match assoc key fields with
      | Some x => Ok x
      | None => Ok default
      end
  | _ => Raise "object has no attribute 'get'"
  end.

(** [request.args.get(key, default)] *)
Definition args_get (key default : string) (args : list (string * string)) : string :=
  match assoc key args with
  | Some v => v
  | None => default
  end.

(** [request.files.getlist(key)] *)
Definition getlist (key : string) (files : list (string * Upload)) : list Upload :=
  map snd (List.filter (fun kv => String.eqb (fst kv) key) files).

(** [request.get_json(silent=True, force=True)]: the parsed body, Python's
    [None] when it does not parse. *)
Definition get_json_silent (r : HttpRequest) : JValue :=
  match req_json r with
  | Some v => v
  | None => JNull
  end.

(** [file.filename or "image.png"] *)
Definition filename_or (name : option string) (default : string) : string :=
  match name with
  | Some EmptyString | None => default
  | Some s => s
  end.

Definition jstr_opt (name : option string) : JValue :=
  match name with
  | Some s => JStr s
  | None => JNull
  end.

(** Lines 104 to 106 of [remove_bg]: the options, read from the query
    string. *)
Definition arg_alpha_matting (r : HttpRequest) : bool :=
  String.eqb (lower (args_get "alpha_matting" "false" (req_args r))) "true".

Definition arg_format (r : HttpRequest) : string :=
  lower (args_get "format" "png" (req_args r)).

Definition arg_base64 (r : HttpRequest) : bool :=
  String.eqb (lower (args_get "base64" "false" (req_args r))) "true".

(** Line 125: [ext = "webp" if output_format == "webp" else "png"] *)
Definition ext_of (output_format : string) : string :=
  if String.eqb output_format "webp" then "webp" else "png".

(** ** Process state and the handler monad *)

(** Records of [logger.info] and [logger.error]; the elapsed time of the
    completion message is left out. *)
Inductive LogEvent : Type :=
| LogLoading (model : string)
| LogLoaded
| LogDone (filename : JValue) (out_filename : string)
| LogError (msg : string).

Section Service.
Context `{E : Externals}.

(** The module globals and the files of [OUTPUT_DIR], by file name. *)
Record State : Type := {
  session : option Session;
  outputs : gmap string bytes;
  uuid_draws : nat;
  log : list LogEvent
}.

(** A handler step: it returns or raises, and either way leaves a state. *)
Definition M (A : Type) : Type := State -> result A * State.

Definition ret {A : Type} (a : A) : M A := fun s => (Ok a, s).

Definition raise {A : Type} (msg : string) : M A := fun s => (Raise msg, s).

Definition bind {A B : Type} (m : M A) (k : A -> M B) : M B :=
  fun s =>
    match m s with
    | (Ok a, s') => k a s'
    | (Raise msg, s') => (Raise msg, s')
    end.

(** [try: m  except Exception as e: h(str(e))] *)
Definition try_except {A : Type} (m : M A) (h : string -> M A) : M A :=
  fun s =>
    match m s with
    | (Ok a, s') => (Ok a, s')
    | (Raise msg, s') => h msg s'
    end.

Definition lift {A : Type} (r : result A) : M A := fun s => (r, s).

Definition logger (ev : LogEvent) : M unit :=
  fun s =>
    (Ok tt, {| session := session s; outputs := outputs s;
               uuid_draws := uuid_draws s; log := log s ++ [ev] |}).

Definition set_session (h : Session) : M unit :=
  fun s =>
    (Ok tt, {| session := Some h; outputs := outputs s;
               uuid_draws := uuid_draws s; log := log s |}).

Definition write_file (name : string) (data : bytes) : M unit :=
  fun s =>
    (Ok tt, {| session := session s; outputs := <[name := data]> (outputs s);
               uuid_draws := uuid_draws s; log := log s |}).

(** A write that stops half way: Pillow opens the path with [w+b] before
    it encodes and, when the encoder raises, removes the file only if this
    call created it.  A file that existed keeps what was written until
    then; a new one leaves no trace. *)
Definition spoil_file (name : string) (written : bytes) : M unit :=
  fun s =>
    match outputs s !! name with
    | Some _ => write_file name written s
    | None => (Ok tt, s)
    end.

(** [str(uuid.uuid4())[:8]] *)
Definition new_file_id : M string :=
  fun s =>
    (Ok (String.substring 0 8 (uuid4 (uuid_draws s))),
     {| session := session s; outputs := outputs s;
        uuid_draws := S (uuid_draws s); log := log s |}).

End Service.

Arguments State {E}.
Arguments M {E} A.

Declare Scope handler_scope.
Delimit Scope handler_scope with handler.
Notation "x <- m ;; k" := (bind m (fun x => k))
  (at level 100, m at next level, right associativity) : handler_scope.
Notation "m ;;; k" := (bind m (fun _ => k))
  (at level 100, right associativity) : handler_scope.

Section Handlers.
Context `{E : Externals}.
Local Open Scope handler_scope.

(** ** app.py *)

Definition MODEL_NAME : string :=
  match environ_REMBG_MODEL with
  | Some name => name
  | None => "u2net"
  end.

Definition get_session : M Session :=
  fun s =>
    match session s with
    | None =>
        (logger (LogLoading MODEL_NAME) ;;;
         h <- lift (new_session MODEL_NAME) ;;
         set_session h ;;;
         logger LogLoaded ;;;
         ret h) s
    | Some h => ret h s
    end.

(** [get_session] statement by statement, for calls that overlap: line
    235 starts Flask's development server, which serves each request in a
    thread of its own, and [get_session] takes no lock.  A thread stands
    before the test of line 35, before one of the lines 36 to 39, or has
    left the function with the value of the global or with an exception. *)
Inductive Pc : Type :=
| AtTest
| AtLoading
| AtConstruct
| AtLoaded
| AtReturn
| Returned (value : option Session)
| Raised (msg : string).

Definition get_session_step (pc : Pc) (s : State) : Pc * State :=
  match pc with
  | AtTest =>
      (match session s with None => AtLoading | Some _ => AtReturn end, s)
  | AtLoading => (AtConstruct, snd (logger (LogLoading MODEL_NAME) s))
  | AtConstruct =>
      match new_session MODEL_NAME with
      | Ok h => (AtLoaded, snd (set_session h s))
      | Raise msg => (Raised msg, s)
      end
  | AtLoaded => (AtReturn, snd (logger LogLoaded s))
  | AtReturn => (Returned (session s), s)
  | Returned _ | Raised _ => (pc, s)
  end.

(** Threads inside [get_session], run one statement at a time in the order
    of [schedule] (thread numbers; a number without a thread is skipped). *)
Fixpoint interleave (schedule : list nat) (threads : list Pc) (s : State)
    : list Pc * State :=
  match schedule with
  | [] => (threads, s)
  | t :: rest =>
      match threads !! t with
      | Some pc =>
          let (pc', s') := get_session_step pc s in
          interleave rest (<[t := pc']> threads) s'
      | None => interleave rest threads s
      end
  end.

Definition home : M Response :=
  ret (jsonify (JObj
    [("name", JStr "BG Remover API");
     ("version", JStr "1.0.0");
     ("model", JStr MODEL_NAME);
     ("endpoints", JObj
        [("POST /remove", JStr "Quitar fondo (recibe imagen, devuelve PNG)");
         ("POST /remove/batch", JStr "Quitar fondo a múltiples imágenes");
         ("GET /download/<id>", JStr "Descargar imagen procesada");
         ("GET /health", JStr "Health check")])])).

Definition health : M Response :=
  ret (jsonify (JObj [("status", JStr "healthy"); ("model", JStr MODEL_NAME)])).

(** [base64.b64decode(v)]: a [str] is decoded, any other JSON value is
    refused with a [TypeError]. *)
Definition b64decode_value (v : JValue) : result bytes :=
  match v with
  | JStr s => b64decode s
  | _ => Raise "argument should be a bytes-like object or ASCII string"
  end.

(** Lines 89 to 101 of [remove_bg]: the image and its name, [None] when the
    request is answered 400.  Nothing here is inside the [try]. *)
Definition read_image (r : HttpRequest) : result (option (bytes * JValue)) :=
  match assoc "file" (req_files r) with
  | Some file =>
      Ok (Some (up_content file, JStr (filename_or (up_filename file) "image.png")))
  | None =>
      if req_is_json r then
        match py_in "image" (get_json_silent r) with
        | Raise msg => Raise msg
        | Ok true =>
            let data := get_json_silent r in
            match py_getitem "image" data with
            | Raise msg => Raise msg
            | Ok b64 =>
                match b64decode_value b64 with
                | Raise msg => Raise msg
                | Ok image_bytes =>
                    match py_get "filename" (JStr "image.png") data with
                    | Raise msg => Raise msg
                    | Ok filename => Ok (Some (image_bytes, filename))
                    end
                end
            end
        | Ok false => Ok None
        end
      else Ok None
  end.

(** [img.save(os.path.join(OUTPUT_DIR, name), fmt)] *)
Definition save_output (img : Image) (name : string) (fmt : ImgFormat) : M unit :=
  match image_save img fmt with
  | Ok data => write_file name data
  | Raise msg => spoil_file name (image_save_partial img fmt) ;;; raise msg
  end.

(** The body of the [try] of [remove_bg], lines 110 to 160. *)
Definition remove_bg_try (image_bytes : bytes) (filename : JValue)
    (alpha : bool) (output_format : string) (return_base64 : bool) : M Response :=
  sess <- get_session ;;
  result_bytes <- lift (remove image_bytes sess
    {| alpha_matting := alpha;
       alpha_matting_foreground_threshold := 240;
       alpha_matting_background_threshold := 10;
       alpha_matting_erode_size := 10 |}) ;;
  result_img <- lift (image_open_rgba result_bytes) ;;
  file_id <- new_file_id ;;
  let ext := ext_of output_format in
  let out_filename := file_id +:+ "." +:+ ext in
  (if String.eqb ext "webp"
   then save_output result_img out_filename (WEBP 95)
   else save_output result_img out_filename PNG) ;;;
  logger (LogDone filename out_filename) ;;;
  if return_base64 then
    buf <- lift (image_save result_img PNG) ;;
    ret (jsonify (JObj
      [("id", JStr file_id);
       ("filename", JStr out_filename);
       ("image", JStr (b64encode buf));
       ("time", JFloat)]))
  else
    buf_mime <- (if String.eqb ext "webp"
                 then buf <- lift (image_save result_img (WEBP 95)) ;;
                      ret (buf, "image/webp")
                 else buf <- lift (image_save result_img PNG) ;;
                      ret (buf, "image/png")) ;;
    ret (send_file (fst buf_mime) (Some (snd buf_mime)) out_filename false).

Definition remove_bg (r : HttpRequest) : M Response :=
  match read_image r with
  | Raise msg => raise msg
  | Ok None =>
      ret (jsonify_status (error_json "Envía una imagen como 'file' o en base64") 400)
  | Ok (Some (image_bytes, filename)) =>
      let alpha := arg_alpha_matting r in
      let output_format := arg_format r in
      let return_base64 := arg_base64 r in
      try_except
        (remove_bg_try image_bytes filename alpha output_format return_base64)
        (fun msg =>
           logger (LogError msg) ;;;
           ret (jsonify_status (error_json msg) 500))
  end.

(** One turn of the [for file in files] loop of [remove_bg_batch]: the
    entry appended to [results]. *)
Definition batch_item (sess : Session) (file : Upload) : M JValue :=
  try_except
    (let image_bytes := up_content file in
     result_bytes <- lift (remove image_bytes sess remove_defaults) ;;
     result_img <- lift (image_open_rgba result_bytes) ;;
     file_id <- new_file_id ;;
     let out_filename := file_id +:+ ".png" in
     save_output result_img out_filename PNG ;;;
     ret (JObj
       [("original", jstr_opt (up_filename file));
        ("id", JStr file_id);
        ("filename", JStr out_filename);
        ("download", JStr ("/download/" +:+ file_id));
        ("time", JFloat);
        ("status", JStr "ok")]))
    (fun msg =>
       ret (JObj
         [("original", jstr_opt (up_filename file));
          ("status", JStr "error");
          ("error", JStr msg)])).

Fixpoint batch_loop (sess : Session) (files : list Upload)
    (results : list JValue) : M (list JValue) :=
  match files with
  | [] => ret results
  | file :: rest =>
      entry <- batch_item sess file ;;
      batch_loop sess rest (results ++ [entry])
  end.

Definition remove_bg_batch (r : HttpRequest) : M Response :=
  if negb (has_key "files" (req_files r)) then
    ret (jsonify_status (error_json "Envía imágenes en el campo 'files'") 400)
  else
    let files := getlist "files" (req_files r) in
    match files with
    | [] => ret (jsonify_status (error_json "No se recibieron archivos") 400)
    | _ :: _ =>
        sess <- get_session ;;
        results <- batch_loop sess files [] ;;
        ret (jsonify (JObj
          [("processed", JInt (Z.of_nat (length results)));
           ("results", JArr results)]))
    end.

(** The [for ext in ...] loop of [download]: the first [file_id.ext] that
    exists is sent as an attachment under its own name. *)
Fixpoint download_probe (file_id : string) (exts : list string)
    (dir : gmap string bytes) : option Response :=
  match exts with
  | [] => None
  | ext :: rest =>
      let path := file_id +:+ "." +:+ ext in
      match dir !! path with
      | Some content => Some (send_file content None path true)
      | None => download_probe file_id rest dir
      end
  end.

Definition download (file_id : string) : M Response :=
  fun s =>
    match download_probe file_id ["png"; "webp"] (outputs s) with
    | Some resp => ret resp s
    | None => ret (jsonify_status (error_json "Archivo no encontrado") 404) s
    end.

(** ** The application *)

Definition view (rt : Route) : M Response :=
  match rt with
  | GetHome => home
  | GetHealth => health
  | PostRemove r => remove_bg r
  | PostRemoveBatch r => remove_bg_batch r
  | GetDownload file_id => download file_id
  end.

(** Flask around a view: an exception that leaves the view becomes the
    framework's 500 page. *)
Definition serve (rt : Route) (s : State) : Response * State :=
  match view rt s with
  | (Ok resp, s') => (resp, s')
  | (Raise _, s') => (internal_server_error, s')
  end.

(** Requests served one after the other by one process. *)
Fixpoint run (rts : list Route) (s : State) : list Response * State :=
  match rts with
  | [] => ([], s)
  | rt :: rest =>
      let (resp, s1) := serve rt s in
      let (resps, s2) := run rest s1 in
      (resp :: resps, s2)
  end.

(** The process as it starts: no session, nothing drawn, an output
    directory that may hold files of earlier runs. *)
Definition start (dir : gmap string bytes) : State :=
  {| session := None; outputs := dir; uuid_draws := 0; log := [] |}.

(** Completed model constructions recorded by the logger. *)
Definition is_loaded (ev : LogEvent) : bool :=
  match ev with
  | LogLoaded => true
  | _ => false
  end.

Definition loaded_count (l : list LogEvent) : nat :=
  length (List.filter is_loaded l).

End Handlers.

(** ** Vocabulary of the properties *)

(** The request with one more query parameter, ahead of the others
    ([args.get] returns the first value of a key). *)
Definition with_arg (key value : string) (r : HttpRequest) : HttpRequest :=
  {| req_files := req_files r; req_is_json := req_is_json r;
     req_json := req_json r; req_args := (key, value) :: req_args r |}.

(** The request with one more field in its JSON object body. *)
Definition with_json_field (key : string) (value : JValue) (r : HttpRequest) : HttpRequest :=
  match req_json r with
  | Some (JObj fields) =>
      {| req_files := req_files r; req_is_json := req_is_json r;
         req_json := Some (JObj ((key, value) :: fields)); req_args := req_args r |}
  | _ => r
  end.

Definition format_of_ext (ext : string) : ImgFormat :=
  if String.eqb ext "webp" then WEBP 95 else PNG.

Section Vocabulary.
Context `{E : Externals}.

(** What one turn of the batch loop writes for an upload, or the exception
    the turn catches: an upload is well formed when this is [Ok]. *)
Definition item_encoded (sess : Session) (file : Upload) : result bytes :=
  match remove (up_content file) sess remove_defaults with
  | Raise msg => Raise msg
  | Ok result_bytes =>
      match image_open_rgba result_bytes with
      | Raise msg => Raise msg
      | Ok result_img => image_save result_img PNG
      end
  end.

(** The entry the loop appends for an upload, read against the directory
    [dir] the request leaves behind. *)
Definition entry_of (sess : Session) (dir : gmap string bytes)
    (file : Upload) (entry : JValue) : Prop :=
  match item_encoded sess file with
  | Raise msg =>
      entry = JObj [("original", jstr_opt (up_filename file));
                    ("status", JStr "error"); ("error", JStr msg)]
  | Ok _ =>
      exists file_id,
        entry = JObj [("original", jstr_opt (up_filename file));
                      ("id", JStr file_id);
                      ("filename", JStr (file_id +:+ ".png"));
                      ("download", JStr ("/download/" +:+ file_id));
                      ("time", JFloat);
                      ("status", JStr "ok")] /\
        is_Some (dir !! (file_id +:+ ".png"))
  end.

(** Two byte strings that encode one picture: [decoded] is its PNG,
    [content] is it in some format. *)
Definition same_picture (content decoded : bytes) : Prop :=
  exists (img : Image) (fmt : ImgFormat),
    image_save img fmt = Ok content /\ image_save img PNG = Ok decoded.

(** The download property as the specification words it, for one call that
    answered inline: the file named in the answer exists, and downloading
    the id yields the picture of the inline payload. *)
Definition download_agrees_with_inline (r : HttpRequest) (s : State) : Prop :=
  forall (file_id out_filename b64 : string),
    fst (serve (PostRemove r) s) =
      jsonify (JObj [("id", JStr file_id); ("filename", JStr out_filename);
                     ("image", JStr b64); ("time", JFloat)]) ->
    let s' := snd (serve (PostRemove r) s) in
    is_Some (outputs s' !! out_filename) /\
    exists content mimetype name attach decoded,
      fst (serve (GetDownload file_id) s') = send_file content mimetype name attach /\
      b64decode b64 = Ok decoded /\
      same_picture content decoded.

(** A computation keeps a property of the state, whether it returns or
    raises. *)
Definition preserves {A : Type} (P : State -> Prop) (m : M A) : Prop :=
  forall s, P s -> P (snd (m s)).

(** The logger has recorded one completed construction exactly when a
    session is cached. *)
Definition loads_match_session (s : State) : Prop :=
  loaded_count (log s) = match session s with Some _ => 1 | None => 0 end.

(** The output directory that the [try] of [remove_bg] leaves behind,
    whether it returns or raises: the directory as it was, or with the one
    file the run saved or spoiled. *)
Definition outputs_after_try (image_bytes : bytes) (alpha : bool)
    (output_format : string) (s : State) : gmap string bytes :=
  match fst (get_session s) with
  | Raise _ => outputs s
  | Ok sess =>
      match remove image_bytes sess
              {| alpha_matting := alpha;
                 alpha_matting_foreground_threshold := 240;
                 alpha_matting_background_threshold := 10;
                 alpha_matting_erode_size := 10 |} with
      | Raise _ => outputs s
      | Ok result_bytes =>
          match image_open_rgba result_bytes with
          | Raise _ => outputs s
          | Ok img =>
              let name := String.substring 0 8 (uuid4 (uuid_draws s)) +:+ "." +:+
                          ext_of output_format in
              let fmt := format_of_ext (ext_of output_format) in
              match image_save img fmt with
              | Raise _ =>
                  match outputs s !! name with
                  | Some _ => <[name := image_save_partial img fmt]> (outputs s)
                  | None => outputs s
                  end
              | Ok data => <[name := data]> (outputs s)
              end
          end
      end
  end.

(** A thread of [get_session] that, with [h] cached, has constructed
    nothing: it has not tested yet, is about to return, or has returned
    [h]. *)
Definition settled (h : Session) (pc : Pc) : Prop :=
  pc = AtTest \/ pc = AtReturn \/ pc = Returned (Some h).

End Vocabulary.

(** ** A small implementation of the libraries

    Pictures are byte strings behind a one-byte signature, base64 is the
    identity on characters, and two successive identifiers share their
    first eight characters.  It serves to run the handlers on concrete
    requests. *)
Module Demo.

Definition known_models : list string :=
  ["u2net"; "u2netp"; "u2net_human_seg"; "silueta"; "isnet-general-use"].

Definition load_model (name : string) : result string :=
  if existsb (String.eqb name) known_models then Ok name
  else Raise ("No session class found for model " +:+ name).

Definition open_picture (data : bytes) : result bytes :=
  match data with
  | Byte.x89 :: pixels => Ok pixels
  | Byte.x52 :: pixels => Ok pixels
  | _ => Raise "cannot identify image file"
  end.

Definition save_picture (pixels : bytes) (fmt : ImgFormat) : result bytes :=
  match fmt with
  | PNG => Ok (Byte.x89 :: pixels)
  | WEBP _ => Ok (Byte.x52 :: pixels)
  end.

Definition cut_out (data : bytes) (sess : string) (opts : RemoveOpts) : result bytes :=
  match open_picture data with
  | Ok pixels => Ok (Byte.x89 :: pixels)
  | Raise msg => Raise msg
  end.

Definition to_text (data : bytes) : string := string_of_list_byte data.

Definition of_text (text : string) : result bytes := Ok (list_byte_of_string text).

Definition draw (n : nat) : string :=
  match n with
  | 0 => "3f2a9c1e-7b4d-4c6a-9e2f-5d8c1b0a7e61"
  | 1 => "3f2a9c1e-1c2d-4e3f-8a4b-6c5d7e8f9a0b"
  | _ => "a1b2c3d4-0e5f-4a6b-8c7d-9e0f1a2b3c4d"
  end.

Definition libs (model : option string) : Externals :=
  {| environ_REMBG_MODEL := model;
     Session := string;
     new_session := load_model;
     remove := cut_out;
     Image := bytes;
     image_open_rgba := open_picture;
     image_save := save_picture;
     image_save_partial := fun _ _ => [];
     b64encode := to_text;
     b64decode := of_text;
     uuid4 := draw |}.

Definition picture_a : bytes := [Byte.x89; Byte.x61; Byte.x62].
Definition picture_b : bytes := [Byte.x89; Byte.x63; Byte.x64; Byte.x65].
Definition not_a_picture : bytes := [Byte.x47; Byte.x49; Byte.x46].

Definition upload (name : string) (data : bytes) : Upload :=
  {| up_filename := Some name; up_content := data |}.

(** A multipart request with one [file] field and a query string. *)
Definition post_file (data : bytes) (args : list (string * string)) : HttpRequest :=
  {| req_files := [("file", upload "photo.png" data)];
     req_is_json := false; req_json := None; req_args := args |}.

(** A JSON request. *)
Definition post_json (body : option JValue) (args : list (string * string)) : HttpRequest :=
  {| req_files := []; req_is_json := true; req_json := body; req_args := args |}.

(** A multipart request with the given [files] fields. *)
Definition post_files (files : list Upload) : HttpRequest :=
  {| req_files := map (fun f => ("files", f)) files;
     req_is_json := false; req_json := None; req_args := [] |}.

(** The libraries with the default model, and with a model name that
    [new_session] refuses. *)
Definition working : Externals := libs None.
Definition unknown_model : Externals := libs (Some "u2net_xl").

Definition webp_inline : HttpRequest :=
  post_file picture_b [("format", "webp"); ("base64", "true")].

Definition jpeg_request : HttpRequest :=
  post_file picture_a [("format", "JPEG")].

Definition three_files : HttpRequest :=
  post_files [upload "a.png" picture_a; upload "b.gif" not_a_picture;
              upload "c.png" picture_b].

Definition one_file : HttpRequest := post_files [upload "a.png" picture_a].

(** The process after it served one PNG request. *)
Definition after_first_png : State (E := working) :=
  snd (serve (E := working) (PostRemove (post_file picture_a [])) (start ∅)).

Definition mixed_case_webp : HttpRequest :=
  post_file picture_a [("format", "WebP")].

(** The same picture sent as a JSON body and as a multipart upload. *)
Definition json_picture : HttpRequest :=
  post_json (Some (JObj [("image", JStr (to_text picture_a));
                         ("filename", JStr "holiday.png")])) [].

Definition multipart_picture : HttpRequest :=
  {| req_files := [("file", {| up_filename := None; up_content := picture_a |})];
     req_is_json := false; req_json := None; req_args := [] |}.

End Demo.

(** * Properties *)

(** ** Query-string flags *)

(** C9: [alpha_matting] and [base64] are true exactly when the parameter is
    present in the query string and its value, lowercased, is the string
    "true"; "1", "yes", "True " (with a blank) and "on" give false, and so
    does an absent parameter. *)
Theorem boolean_args_true_iff_lowercase_true (r : HttpRequest) :
  (arg_alpha_matting r = true <->
     exists v, assoc "alpha_matting" (req_args r) = Some v /\ lower v = "true") /\
  (arg_base64 r = true <->
     exists v, assoc "base64" (req_args r) = Some v /\ lower v = "true") /\
  (forall v, In v ["1"; "yes"; "True "; "on"; " true"; "false"] ->
     arg_alpha_matting (with_arg "alpha_matting" v r) = false /\
     arg_base64 (with_arg "base64" v r) = false) /\
  (forall v, In v ["true"; "True"; "TRUE"; "tRuE"] ->
     arg_alpha_matting (with_arg "alpha_matting" v r) = true /\
     arg_base64 (with_arg "base64" v r) = true) /\
  (assoc "alpha_matting" (req_args r) = None -> arg_alpha_matting r = false) /\
  (assoc "base64" (req_args r) = None -> arg_base64 r = false).
Proof.
  unfold arg_alpha_matting, arg_base64, args_get.
  repeat split.
  - destruct (assoc "alpha_matting" (req_args r)) as [v|] eqn:Hv.
    + intros H. exists v. split; [reflexivity | now apply String.eqb_eq].
    + simpl. discriminate.
  - intros (v & Hv & Hl). rewrite Hv. now apply String.eqb_eq.
  - destruct (assoc "base64" (req_args r)) as [v|] eqn:Hv.
    + intros H. exists v. split; [reflexivity | now apply String.eqb_eq].
    + simpl. discriminate.
  - intros (v & Hv & Hl). rewrite Hv. now apply String.eqb_eq.
  - simpl in H. decompose [or] H; subst; try contradiction; reflexivity.
  - simpl in H. decompose [or] H; subst; try contradiction; reflexivity.
  - simpl in H. decompose [or] H; subst; try contradiction; reflexivity.
  - simpl in H. decompose [or] H; subst; try contradiction; reflexivity.
  - intros ->. reflexivity.
  - intros ->. reflexivity.
Qed.

(** ** Download *)

Lemma dot_png (file_id : string) : file_id +:+ "." +:+ "png" = file_id +:+ ".png".
Proof. reflexivity. Qed.

Lemma dot_webp (file_id : string) : file_id +:+ "." +:+ "webp" = file_id +:+ ".webp".
Proof. reflexivity. Qed.

Lemma serve_download `{E : Externals} (file_id : string) (s : State) :
  serve (GetDownload file_id) s =
    (match outputs s !! (file_id +:+ ".png") with
     | Some content => send_file content None (file_id +:+ ".png") true
     | None =>
         match outputs s !! (file_id +:+ ".webp") with
         | Some content => send_file content None (file_id +:+ ".webp") true
         | None => jsonify_status (error_json "Archivo no encontrado") 404
         end
     end, s).
Proof.
  unfold serve, view, download, download_probe.
  rewrite dot_png, dot_webp.
  destruct (outputs s !! (file_id +:+ ".png")); [reflexivity |].
  destruct (outputs s !! (file_id +:+ ".webp")); reflexivity.
Qed.

(** C6: for every id, the download route looks for [id.png], then for
    [id.webp], and sends the content of the first that exists as an
    attachment; when neither exists it answers 404 with a JSON error body.
    The state is left as it was. *)
Theorem download_probes_png_then_webp `{E : Externals} (file_id : string) (s : State) :
  serve (GetDownload file_id) s =
    (match outputs s !! (file_id +:+ ".png") with
     | Some content => send_file content None (file_id +:+ ".png") true
     | None =>
         match outputs s !! (file_id +:+ ".webp") with
         | Some content => send_file content None (file_id +:+ ".webp") true
         | None => jsonify_status (error_json "Archivo no encontrado") 404
         end
     end, s).
Proof. exact (serve_download file_id s). Qed.

(** ** What the handlers preserve *)

Section MonadPreservation.
Context `{E : Externals}.
Variable P : State -> Prop.

Lemma preserves_ret {A : Type} (a : A) : preserves P (ret a).
Proof. intros s Hs. exact Hs. Qed.

Lemma preserves_raise {A : Type} (msg : string) : preserves P (raise (A := A) msg).
Proof. intros s Hs. exact Hs. Qed.

Lemma preserves_lift {A : Type} (r : result A) : preserves P (lift r).
Proof. intros s Hs. exact Hs. Qed.

Lemma preserves_bind {A B : Type} (m : M A) (k : A -> M B) :
  preserves P m -> (forall a, preserves P (k a)) -> preserves P (bind m k).
Proof.
  intros Hm Hk s Hs. unfold bind.
  specialize (Hm s Hs).
  destruct (m s) as [[a | msg] s1]; simpl in *.
  - now apply Hk.
  - exact Hm.
Qed.

Lemma preserves_try_except {A : Type} (m : M A) (h : string -> M A) :
  preserves P m -> (forall msg, preserves P (h msg)) -> preserves P (try_except m h).
Proof.
  intros Hm Hh s Hs. unfold try_except.
  specialize (Hm s Hs).
  destruct (m s) as [[a | msg] s1]; simpl in *.
  - exact Hm.
  - now apply Hh.
Qed.

End MonadPreservation.

Ltac preserve_step :=
  first
    [ apply preserves_ret
    | apply preserves_raise
    | apply preserves_lift
    | apply preserves_bind; [ | intros ? ]
    | apply preserves_try_except; [ | intros ? ]
    | match goal with
      | |- preserves _ (if ?b then _ else _) => destruct b
      | |- preserves _ (match ?x with _ => _ end) => destruct x
      end ].

Ltac preserve := cbv zeta; repeat ((solve [auto]) || preserve_step).

Section HandlerPreservation.
Context `{E : Externals}.
Variable P : State -> Prop.
Hypothesis P_logger : forall ev, is_loaded ev = false -> preserves P (logger ev).
Hypothesis P_write : forall name data, preserves P (write_file name data).
Hypothesis P_draw : preserves P new_file_id.
Hypothesis P_session : preserves P get_session.

Lemma preserves_spoil_file (name : string) (written : bytes) :
  preserves P (spoil_file name written).
Proof.
  intros s Hs. unfold spoil_file.
  destruct (outputs s !! name); [now apply P_write | exact Hs].
Qed.

Lemma preserves_save_output (img : Image) (name : string) (fmt : ImgFormat) :
  preserves P (save_output img name fmt).
Proof.
  unfold save_output. destruct (image_save img fmt); [apply P_write |].
  apply preserves_bind; [apply preserves_spoil_file | intros _; apply preserves_raise].
Qed.

Lemma preserves_remove_bg_try image_bytes filename alpha output_format return_base64 :
  preserves P (remove_bg_try image_bytes filename alpha output_format return_base64).
Proof.
  unfold remove_bg_try. pose proof preserves_save_output.
  preserve.
Qed.

Lemma preserves_remove_bg (r : HttpRequest) : preserves P (remove_bg r).
Proof.
  unfold remove_bg. pose proof preserves_remove_bg_try.
  destruct (read_image r) as [[[image_bytes filename] | ] | msg]; preserve.
Qed.

Lemma preserves_batch_item (sess : Session) (file : Upload) :
  preserves P (batch_item sess file).
Proof. unfold batch_item. pose proof preserves_save_output. preserve. Qed.

Lemma preserves_batch_loop (sess : Session) (files : list Upload) :
  forall results, preserves P (batch_loop sess files results).
Proof.
  induction files as [| file rest IH]; intros results; simpl.
  - apply preserves_ret.
  - apply preserves_bind; [apply preserves_batch_item | intros entry; apply IH].
Qed.

Lemma preserves_remove_bg_batch (r : HttpRequest) : preserves P (remove_bg_batch r).
Proof.
  unfold remove_bg_batch. pose proof preserves_batch_loop.
  destruct (negb (has_key "files" (req_files r))); [apply preserves_ret |].
  cbv zeta. destruct (getlist "files" (req_files r)); preserve.
Qed.

Lemma preserves_download (file_id : string) : preserves P (download file_id).
Proof.
  intros s Hs. unfold download.
  destruct (download_probe file_id ["png"; "webp"] (outputs s)); exact Hs.
Qed.

Lemma preserves_view (rt : Route) : preserves P (view rt).
Proof.
  destruct rt; simpl.
  - apply preserves_ret.
  - apply preserves_ret.
  - apply preserves_remove_bg.
  - apply preserves_remove_bg_batch.
  - apply preserves_download.
Qed.

Lemma preserves_serve (rt : Route) (s : State) : P s -> P (snd (serve rt s)).
Proof.
  intros Hs. unfold serve.
  pose proof (preserves_view rt s Hs) as H.
  destruct (view rt s) as [[resp | msg] s1]; exact H.
Qed.

Lemma preserves_run (rts : list Route) :
  forall s, P s -> P (snd (run rts s)).
Proof.
  induction rts as [| rt rest IH]; intros s Hs; simpl.
  - exact Hs.
  - pose proof (preserves_serve rt s Hs) as H1.
    destruct (serve rt s) as [resp s1]. simpl in H1.
    specialize (IH s1 H1).
    destruct (run rest s1) as [resps s2]. exact IH.
Qed.

End HandlerPreservation.

(** ** The cached session *)

Section SessionFacts.
Context `{E : Externals}.

Lemma loaded_count_app (l1 l2 : list LogEvent) :
  loaded_count (l1 ++ l2) = loaded_count l1 + loaded_count l2.
Proof. unfold loaded_count. now rewrite List.filter_app, length_app. Qed.

Lemma get_session_cached (s : State) (h : Session) :
  session s = Some h -> get_session s = (Ok h, s).
Proof. intros Hs. unfold get_session. now rewrite Hs. Qed.

Lemma get_session_first (s : State) :
  session s = None ->
  get_session s =
    match new_session MODEL_NAME with
    | Ok h =>
        (Ok h, {| session := Some h; outputs := outputs s;
                  uuid_draws := uuid_draws s;
                  log := (log s ++ [LogLoading MODEL_NAME]) ++ [LogLoaded] |})
    | Raise msg =>
        (Raise msg, {| session := None; outputs := outputs s;
                       uuid_draws := uuid_draws s;
                       log := log s ++ [LogLoading MODEL_NAME] |})
    end.
Proof.
  intros Hs. unfold get_session. rewrite Hs.
  unfold bind, logger, lift, set_session, ret. simpl.
  destruct (new_session MODEL_NAME); simpl; now rewrite ?Hs.
Qed.

Lemma session_kept_by_serve (h : Session) (rt : Route) (s : State) :
  session s = Some h -> session (snd (serve rt s)) = Some h.
Proof.
  apply (preserves_serve (fun s => session s = Some h)).
  - intros ev _ s0 Hs0. exact Hs0.
  - intros name data s0 Hs0. exact Hs0.
  - intros s0 Hs0. exact Hs0.
  - intros s0 Hs0. now rewrite (get_session_cached s0 h Hs0).
Qed.

Lemma loads_match_session_run (rts : list Route) (s : State) :
  loads_match_session s -> loads_match_session (snd (run rts s)).
Proof.
  apply (preserves_run loads_match_session).
  - intros ev Hev s0 Hs0. unfold loads_match_session in *. simpl.
    rewrite loaded_count_app, Hs0. unfold loaded_count. simpl.
    rewrite Hev. simpl. lia.
  - intros name data s0 Hs0. exact Hs0.
  - intros s0 Hs0. exact Hs0.
  - intros s0 Hs0. unfold loads_match_session in *.
    destruct (session s0) as [h |] eqn:Hsess.
    + rewrite (get_session_cached s0 h Hsess). simpl. now rewrite Hsess.
    + rewrite (get_session_first s0 Hsess).
      destruct (new_session MODEL_NAME); simpl;
        rewrite !loaded_count_app, Hs0; reflexivity.
Qed.

Lemma read_image_with_json_field (key : string) (value : JValue) (r : HttpRequest) :
  String.eqb key "image" = false -> String.eqb key "filename" = false ->
  read_image (with_json_field key value r) = read_image r.
Proof.
  intros Hi Hf. unfold with_json_field.
  destruct (req_json r) as [[| | | | | | fields] |] eqn:Hj; try reflexivity.
  unfold read_image, get_json_silent. simpl. rewrite Hj.
  unfold has_key. simpl. rewrite Hi, Hf. reflexivity.
Qed.

Lemma remove_bg_with_json_field (key : string) (value : JValue) (r : HttpRequest) :
  String.eqb key "image" = false -> String.eqb key "filename" = false ->
  remove_bg (with_json_field key value r) = remove_bg r.
Proof.
  intros Hi Hf. unfold remove_bg.
  rewrite (read_image_with_json_field key value r Hi Hf).
  assert (Hargs : req_args (with_json_field key value r) = req_args r).
  { unfold with_json_field. now destruct (req_json r) as [[] |]. }
  unfold arg_alpha_matting, arg_format, arg_base64. now rewrite Hargs.
Qed.

End SessionFacts.


(** ** The batch route *)

Section BatchFacts.
Context `{E : Externals}.

Lemma has_key_getlist (key : string) (files : list (string * Upload)) :
  has_key key files = match getlist key files with [] => false | _ :: _ => true end.
Proof.
  unfold has_key, getlist.
  induction files as [| [k v] rest IH]; simpl; [reflexivity |].
  destruct (String.eqb k key); simpl; [reflexivity | exact IH].
Qed.

Lemma batch_item_state (sess : Session) (file : Upload) (s : State) :
  session (snd (batch_item sess file s)) = session s /\
  log (snd (batch_item sess file s)) = log s.
Proof.
  unfold batch_item, try_except, save_output, bind, lift, new_file_id,
    spoil_file, raise, write_file, ret.
  destruct (remove (up_content file) sess remove_defaults) as [rb | m]; simpl; [| tauto].
  destruct (image_open_rgba rb) as [img | m]; simpl; [| tauto].
  destruct (image_save img PNG) as [data | m]; simpl; [tauto |].
  destruct (outputs s !! _); simpl; tauto.
Qed.

Lemma batch_item_error (sess : Session) (file : Upload) (s : State) (msg : string) :
  item_encoded sess file = Raise msg ->
  fst (batch_item sess file s) =
    Ok (JObj [("original", jstr_opt (up_filename file));
              ("status", JStr "error"); ("error", JStr msg)]).
Proof.
  unfold item_encoded, batch_item, try_except, save_output, bind, lift,
    new_file_id, spoil_file, raise, write_file, ret.
  destruct (remove (up_content file) sess remove_defaults) as [rb | m]; simpl;
    [| congruence].
  destruct (image_open_rgba rb) as [img | m]; simpl; [| congruence].
  destruct (image_save img PNG) as [data | m]; simpl; [congruence |].
  destruct (outputs s !! _); simpl; congruence.
Qed.

Lemma batch_item_ok (sess : Session) (file : Upload) (s : State) (data : bytes) :
  item_encoded sess file = Ok data ->
  let file_id := String.substring 0 8 (uuid4 (uuid_draws s)) in
  batch_item sess file s =
    (Ok (JObj [("original", jstr_opt (up_filename file));
               ("id", JStr file_id);
               ("filename", JStr (file_id +:+ ".png"));
               ("download", JStr ("/download/" +:+ file_id));
               ("time", JFloat);
               ("status", JStr "ok")]),
     {| session := session s;
        outputs := <[file_id +:+ ".png" := data]> (outputs s);
        uuid_draws := S (uuid_draws s);
        log := log s |}).
Proof.
  unfold item_encoded, batch_item, try_except, save_output, bind, lift,
    new_file_id, spoil_file, raise, write_file, ret.
  destruct (remove (up_content file) sess remove_defaults) as [rb | m]; simpl;
    [| congruence].
  destruct (image_open_rgba rb) as [img | m]; simpl; [| congruence].
  destruct (image_save img PNG) as [d | m]; simpl; [congruence |].
  destruct (outputs s !! _); simpl; congruence.
Qed.

Lemma file_kept_by_batch_loop (name : string) (sess : Session) (files : list Upload)
    (results : list JValue) (s : State) :
  is_Some (outputs s !! name) ->
  is_Some (outputs (snd (batch_loop sess files results s)) !! name).
Proof.
  apply (preserves_batch_loop (fun s => is_Some (outputs s !! name))).
  - intros n d s0 Hs0. simpl. rewrite lookup_insert_is_Some.
    destruct (decide (n = name)); [now left | now right].
  - intros s0 Hs0. exact Hs0.
Qed.

Lemma batch_loop_entries (sess : Session) (files : list Upload) :
  forall (results : list JValue) (s : State),
  exists entries s',
    batch_loop sess files results s = (Ok (results ++ entries), s') /\
    Forall2 (entry_of sess (outputs s')) files entries /\
    session s' = session s /\ log s' = log s.
Proof.
  induction files as [| file rest IH]; intros results s; simpl.
  - exists [], s. rewrite app_nil_r. repeat split. constructor.
  - unfold bind at 1.
    destruct (batch_item_state sess file s) as [Hsess Hlog].
    destruct (batch_item sess file s) as [[entry | msg] s1] eqn:Hitem.
    + destruct (IH (results ++ [entry]) s1) as (entries & s' & Hloop & Hall & Hs' & Hl').
      exists (entry :: entries), s'. rewrite Hloop, <- app_assoc. simpl in *.
      split; [reflexivity |].
      split; [| split; congruence].
      constructor; [| exact Hall].
      unfold entry_of.
      destruct (item_encoded sess file) as [data | m] eqn:Henc.
      * pose proof (batch_item_ok sess file s data Henc) as Hok.
        cbv zeta in Hok. rewrite Hitem in Hok. injection Hok as He Hs1.
        exists (String.substring 0 8 (uuid4 (uuid_draws s))).
        split; [exact He |].
        replace s' with (snd (batch_loop sess rest (results ++ [entry]) s1))
          by now rewrite Hloop.
        apply file_kept_by_batch_loop. rewrite Hs1. simpl.
        rewrite lookup_insert_eq. eauto.
      * pose proof (batch_item_error sess file s m Henc) as Herr.
        rewrite Hitem in Herr. simpl in Herr. congruence.
    + exfalso. unfold batch_item, try_except in Hitem.
      destruct (bind _ _ s) as [[a | m] s2]; discriminate.
Qed.

Lemma remove_bg_batch_with_files (r : HttpRequest) (s : State) :
  getlist "files" (req_files r) <> [] ->
  remove_bg_batch r s =
    match get_session s with
    | (Ok sess, s1) =>
        match batch_loop sess (getlist "files" (req_files r)) [] s1 with
        | (Ok results, s2) =>
            (Ok (jsonify (JObj
                   [("processed", JInt (Z.of_nat (length results)));
                    ("results", JArr results)])), s2)
        | (Raise msg, s2) => (Raise msg, s2)
        end
    | (Raise msg, s1) => (Raise msg, s1)
    end.
Proof.
  intros Hfiles. unfold remove_bg_batch.
  rewrite has_key_getlist.
  destruct (getlist "files" (req_files r)) as [| file rest] eqn:Hl;
    [congruence |].
  change (negb true) with false. unfold bind. cbv beta iota zeta.
  destruct (get_session s) as [[sess | msg] s1]; [| reflexivity].
  destruct (batch_loop sess (file :: rest) [] s1) as [[results | msg] s2];
    reflexivity.
Qed.

End BatchFacts.

(** C2: a batch of N uploads of which upload k is malformed (processing it
    raises [msg]) and all the others are well formed is answered with N
    results in the order of the uploads and [processed] = N; result k is
    the error entry carrying [msg], every other result is an ok entry whose
    PNG is in the output directory when the answer is returned.  The
    session is the one [get_session] hands to the request. *)
Theorem batch_isolates_the_malformed_file `{E : Externals}
    (r : HttpRequest) (s : State) (sess : Session)
    (k : nat) (bad : Upload) (msg : string) :
  fst (get_session s) = Ok sess ->
  getlist "files" (req_files r) !! k = Some bad ->
  item_encoded sess bad = Raise msg ->
  (forall i file, i <> k -> getlist "files" (req_files r) !! i = Some file ->
     exists data, item_encoded sess file = Ok data) ->
  exists results,
    fst (serve (PostRemoveBatch r) s) =
      jsonify (JObj
        [("processed", JInt (Z.of_nat (length (getlist "files" (req_files r)))));
         ("results", JArr results)]) /\
    length results = length (getlist "files" (req_files r)) /\
    results !! k =
      Some (JObj [("original", jstr_opt (up_filename bad));
                  ("status", JStr "error"); ("error", JStr msg)]) /\
    forall i file, i <> k -> getlist "files" (req_files r) !! i = Some file ->
      exists file_id,
        results !! i =
          Some (JObj [("original", jstr_opt (up_filename file));
                      ("id", JStr file_id);
                      ("filename", JStr (file_id +:+ ".png"));
                      ("download", JStr ("/download/" +:+ file_id));
                      ("time", JFloat);
                      ("status", JStr "ok")]) /\
        is_Some (outputs (snd (serve (PostRemoveBatch r) s)) !! (file_id +:+ ".png")).
Proof.
  intros Hsess Hbad Hmal Hgood.
  assert (Hne : getlist "files" (req_files r) <> []).
  { intros Hnil. rewrite Hnil in Hbad. discriminate. }
  unfold serve, view. rewrite (remove_bg_batch_with_files r s Hne).
  destruct (get_session s) as [[sess' | m] s1]; simpl in Hsess; [| discriminate].
  injection Hsess as ->.
  destruct (batch_loop_entries sess (getlist "files" (req_files r)) [] s1)
    as (entries & s2 & Hloop & Hall & _ & _).
  rewrite Hloop. simpl.
  pose proof (Forall2_length _ _ _ Hall) as Hlen.
  exists entries. rewrite Hlen.
  split; [reflexivity |]. split; [reflexivity |]. split.
  - destruct (Forall2_lookup_l _ _ _ _ _ Hall Hbad) as (entry & Hentry & Hof).
    unfold entry_of in Hof. rewrite Hmal in Hof. now rewrite Hentry, Hof.
  - intros i file Hik Hfile.
    destruct (Forall2_lookup_l _ _ _ _ _ Hall Hfile) as (entry & Hentry & Hof).
    unfold entry_of in Hof.
    destruct (Hgood i file Hik Hfile) as [data Hdata]. rewrite Hdata in Hof.
    destruct Hof as (file_id & -> & Hstored).
    exists file_id. split; assumption.
Qed.

(** On three uploads of which the second is not a picture. *)
Lemma batch_isolates_the_malformed_file_witness :
  exists results,
    fst (serve (E := Demo.working) (PostRemoveBatch Demo.three_files) (start ∅)) =
      jsonify (JObj [("processed", JInt 3); ("results", JArr results)]) /\
    length results = 3 /\
    results !! 1 =
      Some (JObj [("original", JStr "b.gif"); ("status", JStr "error");
                  ("error", JStr "cannot identify image file")]).
Proof.
  destruct (batch_isolates_the_malformed_file (E := Demo.working)
              Demo.three_files (start ∅) "u2net" 1
              (Demo.upload "b.gif" Demo.not_a_picture)
              "cannot identify image file" eq_refl eq_refl eq_refl)
    as (results & Hresp & Hlen & Hbad & _).
  - intros i file Hi Hfile.
    destruct i as [| [| [| i]]]; try congruence; try discriminate;
      injection Hfile as <-; eexists; reflexivity.
  - exists results. split; [exact Hresp |]. split; [exact Hlen | exact Hbad].
Defined.

(** C10: the batch route takes the session once, before its loop.  For a
    request with files, when [get_session] raises (its first construction
    fails) the exception leaves the view: the answer is the framework's
    500 page, there are no per-item results, nothing is written and no
    identifier is drawn.  When it returns a session, the loop runs with that
    one session on every file, and neither the cached session nor the
    logger's record changes during the loop. *)
Theorem batch_session_taken_once_outside_the_loop `{E : Externals}
    (r : HttpRequest) (s : State) :
  getlist "files" (req_files r) <> [] ->
  (forall msg, session s = None -> new_session MODEL_NAME = Raise msg ->
     view (PostRemoveBatch r) s = (Raise msg, snd (get_session s)) /\
     serve (PostRemoveBatch r) s = (internal_server_error, snd (get_session s)) /\
     outputs (snd (serve (PostRemoveBatch r) s)) = outputs s /\
     uuid_draws (snd (serve (PostRemoveBatch r) s)) = uuid_draws s /\
     session (snd (serve (PostRemoveBatch r) s)) = None) /\
  (forall sess s1, get_session s = (Ok sess, s1) ->
     exists results s2,
       batch_loop sess (getlist "files" (req_files r)) [] s1 = (Ok results, s2) /\
       serve (PostRemoveBatch r) s =
         (jsonify (JObj [("processed", JInt (Z.of_nat (length results)));
                         ("results", JArr results)]), s2) /\
       session s2 = session s1 /\ log s2 = log s1).
Proof.
  intros Hne. split.
  - intros msg Hnone Hfail.
    unfold serve, view. rewrite (remove_bg_batch_with_files r s Hne).
    rewrite (get_session_first s Hnone), Hfail. simpl. repeat split.
  - intros sess s1 Hget.
    unfold serve, view. rewrite (remove_bg_batch_with_files r s Hne), Hget.
    destruct (batch_loop_entries sess (getlist "files" (req_files r)) [] s1)
      as (entries & s2 & Hloop & _ & Hs & Hl).
    exists entries, s2. rewrite Hloop. simpl. repeat split; assumption.
Qed.

(** On the first batch request of a process whose model name rembg does
    not know. *)
Lemma batch_session_taken_once_outside_the_loop_witness :
  serve (E := Demo.unknown_model) (PostRemoveBatch Demo.one_file) (start ∅) =
    (internal_server_error,
     {| session := None; outputs := ∅; uuid_draws := 0;
        log := [LogLoading "u2net_xl"] |}).
Proof.
  assert (Hne : getlist "files" (req_files Demo.one_file) <> []) by discriminate.
  destruct (batch_session_taken_once_outside_the_loop (E := Demo.unknown_model)
              Demo.one_file (start ∅) Hne) as (Hfail & _).
  destruct (Hfail "No session class found for model u2net_xl" eq_refl eq_refl)
    as (_ & Hserve & _).
  exact Hserve.
Defined.

(** ** The single-image route *)

Section RemoveFacts.
Context `{E : Externals}.

Lemma get_session_ok (s s1 : State) (sess : Session) :
  get_session s = (Ok sess, s1) ->
  session s1 = Some sess /\ outputs s1 = outputs s /\ uuid_draws s1 = uuid_draws s.
Proof.
  intros Hget. destruct (session s) as [h |] eqn:Hs.
  - rewrite (get_session_cached s h Hs) in Hget. injection Hget as -> ->. tauto.
  - rewrite (get_session_first s Hs) in Hget.
    destruct (new_session MODEL_NAME); [| discriminate].
    injection Hget as -> <-. simpl. tauto.
Qed.

Lemma ext_of_cases (output_format : string) :
  (output_format = "webp" /\ ext_of output_format = "webp") \/
  (output_format <> "webp" /\ ext_of output_format = "png").
Proof.
  unfold ext_of. destruct (String.eqb_spec output_format "webp"); tauto.
Qed.

Lemma remove_bg_try_ext image_bytes filename alpha f1 f2 return_base64 :
  ext_of f1 = ext_of f2 ->
  remove_bg_try image_bytes filename alpha f1 return_base64 =
  remove_bg_try image_bytes filename alpha f2 return_base64.
Proof. intros H. unfold remove_bg_try. now rewrite H. Qed.

(** The steps of a successful run of the [try] of [remove_bg]. *)
Lemma remove_bg_try_returns image_bytes filename alpha output_format return_base64
    (s s' : State) (resp : Response) :
  remove_bg_try image_bytes filename alpha output_format return_base64 s = (Ok resp, s') ->
  exists sess s1 result_bytes img data,
    let ext := ext_of output_format in
    let file_id := String.substring 0 8 (uuid4 (uuid_draws s)) in
    let out_filename := file_id +:+ "." +:+ ext in
    get_session s = (Ok sess, s1) /\
    remove image_bytes sess
      {| alpha_matting := alpha;
         alpha_matting_foreground_threshold := 240;
         alpha_matting_background_threshold := 10;
         alpha_matting_erode_size := 10 |} = Ok result_bytes /\
    image_open_rgba result_bytes = Ok img /\
    image_save img (format_of_ext ext) = Ok data /\
    s' = {| session := Some sess;
            outputs := <[out_filename := data]> (outputs s);
            uuid_draws := S (uuid_draws s);
            log := log s1 ++ [LogDone filename out_filename] |} /\
    if return_base64 then
      exists png, image_save img PNG = Ok png /\
        resp = jsonify (JObj [("id", JStr file_id);
                              ("filename", JStr out_filename);
                              ("image", JStr (b64encode png));
                              ("time", JFloat)])
    else
      resp = send_file data
               (Some (if String.eqb ext "webp" then "image/webp" else "image/png"))
               out_filename false.
Proof.
  unfold remove_bg_try. unfold bind at 1.
  destruct (get_session s) as [[sess | m] s1] eqn:Hget; [| discriminate].
  destruct (get_session_ok s s1 sess Hget) as (Hsess & Hout & Hdraws).
  unfold bind at 1. unfold lift at 1.
  destruct (remove image_bytes sess _) as [result_bytes | m] eqn:Hrem; [| discriminate].
  unfold bind at 1. unfold lift at 1.
  destruct (image_open_rgba result_bytes) as [img | m] eqn:Hopen; [| discriminate].
  unfold bind at 1. unfold new_file_id at 1. cbv zeta.
  rewrite Hsess, Hout, Hdraws.
  intros Hrun. unfold format_of_ext.
  unfold save_output, bind, lift, spoil_file, raise, write_file, logger, ret in Hrun.
  destruct (String.eqb (ext_of output_format) "webp") eqn:Hext.
  - destruct (image_save img (WEBP 95)) as [data | m] eqn:Hdata;
      [| simpl in Hrun; destruct (outputs s !! _) in Hrun; discriminate].
    exists sess, s1, result_bytes, img, data.
    repeat (split; [first [reflexivity | assumption] |]).
    simpl in Hrun. destruct return_base64.
    + destruct (image_save img PNG) as [png | m]; [| discriminate].
      injection Hrun as <- <-. split; [reflexivity |]. exists png. now split.
    + injection Hrun as <- <-. split; reflexivity.
  - destruct (image_save img PNG) as [data | m] eqn:Hdata;
      [| simpl in Hrun; destruct (outputs s !! _) in Hrun; discriminate].
    exists sess, s1, result_bytes, img, data.
    repeat (split; [first [reflexivity | assumption] |]).
    simpl in Hrun. destruct return_base64.
    + injection Hrun as <- <-. split; [reflexivity |]. exists data. now split.
    + injection Hrun as <- <-. split; reflexivity.
Qed.

End RemoveFacts.

Section RemoveAnswers.
Context `{E : Externals}.

Lemma serve_remove_ok (r : HttpRequest) (s : State) :
  resp_status (fst (serve (PostRemove r) s)) = 200 ->
  exists image_bytes filename,
    read_image r = Ok (Some (image_bytes, filename)) /\
    remove_bg_try image_bytes filename
      (arg_alpha_matting r) (arg_format r) (arg_base64 r) s =
      (Ok (fst (serve (PostRemove r) s)), snd (serve (PostRemove r) s)).
Proof.
  unfold serve, view, remove_bg.
  destruct (read_image r) as [[[image_bytes filename] |] | m]; simpl;
    [| discriminate | discriminate].
  unfold try_except.
  destruct (remove_bg_try image_bytes filename _ _ _ s) as [[resp | m] s1] eqn:Hrun;
    simpl; [| discriminate].
  intros _. exists image_bytes, filename.
  split; [reflexivity | first [exact Hrun | reflexivity]].
Qed.

Lemma serve_remove_status (r : HttpRequest) (s : State) (x : bytes * JValue) :
  read_image r = Ok (Some x) ->
  resp_status (fst (serve (PostRemove r) s)) = 200 \/
  resp_status (fst (serve (PostRemove r) s)) = 500.
Proof.
  intros Hread. unfold serve, view, remove_bg. rewrite Hread.
  destruct x as [image_bytes filename]. unfold try_except.
  destruct (remove_bg_try image_bytes filename _ _ _ s) as [[resp | m] s1] eqn:Hrun;
    simpl; [| now right].
  left. apply remove_bg_try_returns in Hrun.
  destruct Hrun as (sess & s1' & rb & img & data & _ & _ & _ & _ & _ & Hresp).
  destruct (arg_base64 r).
  - destruct Hresp as (png & _ & ->). reflexivity.
  - now rewrite Hresp.
Qed.

Lemma serve_remove_same_ext (r1 r2 : HttpRequest) (s : State) :
  read_image r1 = read_image r2 ->
  arg_alpha_matting r1 = arg_alpha_matting r2 ->
  arg_base64 r1 = arg_base64 r2 ->
  ext_of (arg_format r1) = ext_of (arg_format r2) ->
  serve (PostRemove r1) s = serve (PostRemove r2) s.
Proof.
  intros Hread Ha Hb Hext. unfold serve, view, remove_bg.
  rewrite Hread, Ha, Hb.
  destruct (read_image r2) as [[[image_bytes filename] |] | m]; try reflexivity.
  now rewrite (remove_bg_try_ext _ _ _ _ _ _ Hext).
Qed.

Lemma append_inj_r (p a b : string) : p +:+ a = p +:+ b -> a = b.
Proof.
  induction p as [| c p IH]; simpl; intros H; [exact H |].
  injection H as H. now apply IH.
Qed.

End RemoveAnswers.

(** C4: a request whose [format], lowercased, is not "webp" (any other
    value, or none) is served exactly as the same request with
    [format=png]; when it carries an image it is never answered 400; and
    when it succeeds the file written is [id.png], PNG-encoded, and the
    answer names that file and carries those PNG bytes. *)
Theorem unrecognized_format_falls_back_to_png `{E : Externals}
    (r : HttpRequest) (s : State) :
  arg_format r <> "webp" ->
  serve (PostRemove r) s = serve (PostRemove (with_arg "format" "png" r)) s /\
  (forall x, read_image r = Ok (Some x) ->
     resp_status (fst (serve (PostRemove r) s)) = 200 \/
     resp_status (fst (serve (PostRemove r) s)) = 500) /\
  (resp_status (fst (serve (PostRemove r) s)) = 200 ->
   exists file_id img data,
     image_save img PNG = Ok data /\
     outputs (snd (serve (PostRemove r) s)) !! (file_id +:+ ".png") = Some data /\
     (fst (serve (PostRemove r) s) =
        send_file data (Some "image/png") (file_id +:+ ".png") false \/
      fst (serve (PostRemove r) s) =
        jsonify (JObj [("id", JStr file_id);
                       ("filename", JStr (file_id +:+ ".png"));
                       ("image", JStr (b64encode data));
                       ("time", JFloat)]))).
Proof.
  intros Hfmt.
  destruct (ext_of_cases (arg_format r)) as [[Hw _] | [_ Hext]]; [contradiction |].
  split; [| split].
  - apply serve_remove_same_ext; try reflexivity. now rewrite Hext.
  - intros x. apply serve_remove_status.
  - intros Hok.
    destruct (serve_remove_ok r s Hok) as (image_bytes & filename & _ & Hrun).
    apply remove_bg_try_returns in Hrun.
    destruct Hrun as (sess & s1 & rb & img & data & _ & _ & _ & Hsave & Hs' & Hresp).
    cbv zeta in Hsave, Hs', Hresp. rewrite Hext in Hsave, Hs', Hresp.
    change (format_of_ext "png") with PNG in Hsave.
    rewrite dot_png in Hs', Hresp.
    exists (String.substring 0 8 (uuid4 (uuid_draws s))), img, data.
    split; [exact Hsave |]. split.
    + rewrite Hs'. simpl. apply lookup_insert_eq.
    + destruct (arg_base64 r).
      * right. destruct Hresp as (png & Hpng & ->).
        rewrite Hsave in Hpng. now injection Hpng as ->.
      * left. exact Hresp.
Qed.

(** On a request with [format=JPEG]: it is served as with [format=png] and
    its PNG is stored. *)
Lemma unrecognized_format_falls_back_to_png_witness :
  serve (E := Demo.working) (PostRemove Demo.jpeg_request) (start ∅) =
  serve (E := Demo.working)
    (PostRemove (with_arg "format" "png" Demo.jpeg_request)) (start ∅) /\
  exists file_id img data,
    @image_save Demo.working img PNG = Ok data /\
    outputs (snd (serve (E := Demo.working) (PostRemove Demo.jpeg_request) (start ∅)))
      !! (file_id +:+ ".png") = Some data.
Proof.
  assert (Hfmt : arg_format Demo.jpeg_request <> "webp") by (vm_compute; discriminate).
  destruct (unrecognized_format_falls_back_to_png (E := Demo.working)
              Demo.jpeg_request (start ∅) Hfmt) as (Hsame & _ & Hstored).
  split; [exact Hsame |].
  destruct (Hstored eq_refl) as (file_id & img & data & Hsave & Hfile & _).
  exists file_id, img, data. now split.
Defined.

(** C3 (as amended): after a successful POST /remove the output directory
    holds [id.ext], the picture encoded in the effective format ([ext] is
    webp when the lowercased [format] is "webp", png otherwise), before the
    answer is returned.  GET /download/id then sends exactly that file
    provided [ext] is png or no [id.png] existed before the call.  In inline
    mode the payload is the base64 text of the PNG encoding of the same
    picture, whatever the format, so the download and the decoded payload
    are the same picture, and the same bytes when [ext] is png. *)
Theorem stored_file_serves_the_download `{E : Externals}
    (r : HttpRequest) (s : State) :
  (forall data, b64decode (b64encode data) = Ok data) ->
  resp_status (fst (serve (PostRemove r) s)) = 200 ->
  let ext := ext_of (arg_format r) in
  let s' := snd (serve (PostRemove r) s) in
  exists file_id img data,
    image_save img (format_of_ext ext) = Ok data /\
    outputs s' !! (file_id +:+ "." +:+ ext) = Some data /\
    (ext = "png" \/ outputs s !! (file_id +:+ ".png") = None ->
     fst (serve (GetDownload file_id) s') =
       send_file data None (file_id +:+ "." +:+ ext) true) /\
    if arg_base64 r then
      exists b64 png,
        fst (serve (PostRemove r) s) =
          jsonify (JObj [("id", JStr file_id);
                         ("filename", JStr (file_id +:+ "." +:+ ext));
                         ("image", JStr b64);
                         ("time", JFloat)]) /\
        b64 = b64encode png /\
        b64decode b64 = Ok png /\
        image_save img PNG = Ok png /\
        same_picture data png /\
        (ext = "png" -> png = data)
    else
      fst (serve (PostRemove r) s) =
        send_file data
          (Some (if String.eqb ext "webp" then "image/webp" else "image/png"))
          (file_id +:+ "." +:+ ext) false.
Proof.
  intros Hb64 Hok ext s'.
  destruct (serve_remove_ok r s Hok) as (image_bytes & filename & _ & Hrun).
  apply remove_bg_try_returns in Hrun.
  destruct Hrun as (sess & s1 & rb & img & data & _ & _ & _ & Hsave & Hs' & Hresp).
  cbv zeta in Hsave, Hs', Hresp. fold ext in Hsave, Hs', Hresp. fold s' in Hs'.
  set (file_id := String.substring 0 8 (uuid4 (uuid_draws s))) in *.
  exists file_id, img, data.
  split; [exact Hsave |]. split; [| split].
  - rewrite Hs'. simpl. apply lookup_insert_eq.
  - intros Hfresh. rewrite serve_download. simpl. rewrite Hs'. simpl.
    destruct (ext_of_cases (arg_format r)) as [[_ Hext] | [_ Hext]];
      fold ext in Hext; rewrite Hext in *.
    + destruct Hfresh as [Hpng | Hnone]; [discriminate |].
      change ("." +:+ "webp") with ".webp".
      rewrite lookup_insert_ne, Hnone, lookup_insert_eq; [reflexivity |].
      intros Heq. apply append_inj_r in Heq. discriminate.
    + change ("." +:+ "png") with ".png".
      rewrite lookup_insert_eq. reflexivity.
  - destruct (arg_base64 r).
    + destruct Hresp as (png & Hpng & Hresp).
      exists (b64encode png), png.
      repeat split; try assumption; try apply Hb64.
      * exists img, (format_of_ext ext). now split.
      * intros Hext. rewrite Hext in Hsave.
        change (format_of_ext "png") with PNG in Hsave. congruence.
    + exact Hresp.
Qed.

(** C3, as the specification words it, fails when an identifier repeats:
    the process has stored [3f2a9c1e.png] for a first request, a second
    request asks for webp inline and draws the same eight characters; its
    [3f2a9c1e.webp] is written, but the download of [3f2a9c1e] sends the
    older PNG, a different picture from the inline payload. *)
Lemma download_misses_inline_after_id_collision :
  fst (serve (E := Demo.working) (PostRemove Demo.webp_inline) Demo.after_first_png) =
    jsonify (JObj [("id", JStr "3f2a9c1e");
                   ("filename", JStr "3f2a9c1e.webp");
                   ("image", JStr (@b64encode Demo.working Demo.picture_b));
                   ("time", JFloat)]) /\
  outputs (snd (serve (E := Demo.working) (PostRemove Demo.webp_inline)
                  Demo.after_first_png)) !! "3f2a9c1e.webp" =
    Some [Byte.x52; Byte.x63; Byte.x64; Byte.x65] /\
  fst (serve (E := Demo.working) (GetDownload "3f2a9c1e")
         (snd (serve (E := Demo.working) (PostRemove Demo.webp_inline)
                 Demo.after_first_png))) =
    send_file Demo.picture_a None "3f2a9c1e.png" true /\
  ~ download_agrees_with_inline (E := Demo.working)
      Demo.webp_inline Demo.after_first_png.
Proof.
  split; [reflexivity |]. split; [reflexivity |]. split; [reflexivity |].
  intros H.
  specialize (H "3f2a9c1e" "3f2a9c1e.webp"
                (@b64encode Demo.working Demo.picture_b) eq_refl).
  destruct H as (_ & content & mimetype & name & attach & decoded
                 & Hdown & Hdec & img & fmt & Hsave & Hpng).
  vm_compute in Hdown. vm_compute in Hdec.
  injection Hdown as <- _ _ _. injection Hdec as <-.
  simpl in Hpng. injection Hpng as ->.
  destruct fmt; simpl in Hsave; discriminate.
Qed.

(** The demo base64 decodes what it encodes. *)
Lemma demo_base64_round_trip (data : bytes) :
  @b64decode Demo.working (@b64encode Demo.working data) = Ok data.
Proof.
  simpl. unfold Demo.of_text, Demo.to_text.
  now rewrite list_byte_of_string_of_list_byte.
Qed.

(** On a first request that asks for webp inline, in an empty directory. *)
Lemma stored_file_serves_the_download_witness :
  exists file_id img data,
    @image_save Demo.working img (WEBP 95) = Ok data /\
    outputs (snd (serve (E := Demo.working) (PostRemove Demo.webp_inline) (start ∅)))
      !! (file_id +:+ ".webp") = Some data /\
    fst (serve (E := Demo.working) (GetDownload file_id)
           (snd (serve (E := Demo.working) (PostRemove Demo.webp_inline) (start ∅)))) =
      send_file data None (file_id +:+ ".webp") true.
Proof.
  destruct (stored_file_serves_the_download (E := Demo.working)
              Demo.webp_inline (start ∅) demo_base64_round_trip eq_refl)
    as (file_id & img & data & Hsave & Hfile & Hdown & _).
  exists file_id, img, data.
  split; [exact Hsave |]. split; [exact Hfile |].
  apply Hdown. right. apply lookup_empty.
Defined.

(** ** Requests without a usable image *)

(** C5: a JSON request (no [file] field) whose body does not parse, or
    parses to [null], a number, an array holding the string "image" or a
    string containing "image", carries no [image] field, yet the view
    raises before its [try] and Flask answers 500 with its HTML page; only
    a body on which the membership test returns false, such as an object
    without [image], gets the 400 JSON answer. *)
Theorem remove_bg_json_body_without_image_can_raise `{E : Externals}
    (s : State) (args : list (string * string)) :
  let post body :=
    PostRemove {| req_files := []; req_is_json := true;
                  req_json := body; req_args := args |} in
  serve (post None) s = (internal_server_error, s) /\
  serve (post (Some JNull)) s = (internal_server_error, s) /\
  serve (post (Some (JInt 5))) s = (internal_server_error, s) /\
  serve (post (Some (JArr [JStr "image"]))) s = (internal_server_error, s) /\
  serve (post (Some (JStr "an image"))) s = (internal_server_error, s) /\
  serve (post (Some (JObj [("filename", JStr "a.png")]))) s =
    (jsonify_status (error_json "Envía una imagen como 'file' o en base64") 400, s).
Proof. repeat split. Qed.

(** C8: the options are read from the query string only.  A field
    [alpha_matting], [format], [base64] or [model] in the JSON body changes
    neither the answer nor the state, whatever its value; with an empty
    query string the options are false, "png" and false. *)
Theorem json_body_options_are_not_read `{E : Externals}
    (r : HttpRequest) (s : State) (v : JValue) :
  serve (PostRemove (with_json_field "alpha_matting" v r)) s = serve (PostRemove r) s /\
  serve (PostRemove (with_json_field "format" v r)) s = serve (PostRemove r) s /\
  serve (PostRemove (with_json_field "base64" v r)) s = serve (PostRemove r) s /\
  serve (PostRemove (with_json_field "model" v r)) s = serve (PostRemove r) s /\
  (req_args r = [] ->
   arg_alpha_matting r = false /\ arg_format r = "png" /\ arg_base64 r = false).
Proof.
  unfold serve, view.
  rewrite !remove_bg_with_json_field by reflexivity.
  repeat split; unfold arg_alpha_matting, arg_format, arg_base64;
    rewrite H; reflexivity.
Qed.

(** The same on one request: a JSON body that asks for webp is served a
    PNG. *)
Example json_format_webp_is_served_as_png :
  fst (serve (E := Demo.working)
         (PostRemove (Demo.post_json
            (Some (JObj [("image", JStr (@b64encode Demo.working Demo.picture_a));
                         ("format", JStr "webp")])) []))
         (start ∅)) =
  send_file Demo.picture_a (Some "image/png") "3f2a9c1e.png" false.
Proof. reflexivity. Qed.

(** ** Error answers *)

(** C7: failures that no [try] covers leave the view, and Flask answers
    them with its HTML page, not with a JSON error body.  When the session
    cannot be obtained, /remove/batch (which calls [get_session] before its
    loop, outside any [try]) answers the HTML 500 for every request with
    files, while /remove, which calls it inside its [try], answers the JSON
    500 with the message for every request that carries an image.  And a
    JSON body whose [image] cannot be decoded (line 98, before the [try])
    gets the HTML 500 on any state. *)
Theorem uncaught_failures_answer_html_500 `{E : Externals} (s : State) (msg : string) :
  fst (get_session s) = Raise msg ->
  (forall r, getlist "files" (req_files r) <> [] ->
     fst (serve (PostRemoveBatch r) s) = internal_server_error) /\
  (forall r x, read_image r = Ok (Some x) ->
     fst (serve (PostRemove r) s) = jsonify_status (error_json msg) 500) /\
  (forall args v m, b64decode_value v = Raise m ->
     fst (serve (PostRemove {| req_files := []; req_is_json := true;
                               req_json := Some (JObj [("image", v)]);
                               req_args := args |}) s) = internal_server_error).
Proof.
  intros Hget. split; [| split].
  - intros r Hne. unfold serve, view.
    rewrite (remove_bg_batch_with_files r s Hne).
    destruct (get_session s) as [[sess | m] s1]; [discriminate | reflexivity].
  - intros r [image_bytes filename] Hread.
    unfold serve, view, remove_bg. rewrite Hread.
    unfold try_except, remove_bg_try. unfold bind at 1.
    destruct (get_session s) as [[sess | m] s1]; simpl in Hget; [discriminate |].
    injection Hget as ->. reflexivity.
  - intros args v m Hv. unfold serve, view, remove_bg, read_image. simpl.
    rewrite Hv. reflexivity.
Qed.

(** On a process whose model name rembg does not know: the batch gets the
    HTML page, the single upload the JSON error. *)
Lemma uncaught_failures_answer_html_500_witness :
  fst (serve (E := Demo.unknown_model) (PostRemoveBatch Demo.one_file) (start ∅)) =
    {| resp_status := 500; resp_body := BHtmlServerError |} /\
  fst (serve (E := Demo.unknown_model)
         (PostRemove (Demo.post_file Demo.picture_a [])) (start ∅)) =
    jsonify_status (error_json "No session class found for model u2net_xl") 500.
Proof.
  destruct (uncaught_failures_answer_html_500 (E := Demo.unknown_model) (start ∅)
              "No session class found for model u2net_xl" eq_refl)
    as (Hbatch & Hremove & _).
  split.
  - apply (Hbatch Demo.one_file). discriminate.
  - exact (Hremove (Demo.post_file Demo.picture_a [])
             (Demo.picture_a, JStr "photo.png") eq_refl).
Defined.

(** * Further properties of the handlers *)

(** ** The output directory *)

Section DirectoryFacts.
Context `{E : Externals}.

Lemma get_session_frame (s : State) :
  outputs (snd (get_session s)) = outputs s /\
  uuid_draws (snd (get_session s)) = uuid_draws s.
Proof.
  destruct (session s) as [h |] eqn:Hs.
  - rewrite (get_session_cached s h Hs). tauto.
  - rewrite (get_session_first s Hs).
    destruct (new_session MODEL_NAME); simpl; tauto.
Qed.

Lemma remove_bg_try_outputs image_bytes filename alpha output_format return_base64
    (s : State) :
  outputs (snd (remove_bg_try image_bytes filename alpha output_format return_base64 s)) =
  outputs_after_try image_bytes alpha output_format s.
Proof.
  unfold outputs_after_try, remove_bg_try. unfold bind at 1.
  destruct (get_session_frame s) as [Hout Hdraws].
  destruct (get_session s) as [[sess | m] s1] eqn:Hget; simpl in *; [| exact Hout].
  unfold bind at 1. unfold lift at 1.
  destruct (remove image_bytes sess _) as [result_bytes | m]; [| exact Hout].
  unfold bind at 1. unfold lift at 1.
  destruct (image_open_rgba result_bytes) as [img | m]; [| exact Hout].
  unfold bind at 1. unfold new_file_id at 1. cbv zeta.
  rewrite Hout, Hdraws. unfold format_of_ext.
  unfold save_output, bind, lift, spoil_file, raise, write_file, logger, ret.
  destruct (String.eqb (ext_of output_format) "webp") eqn:Hext.
  - destruct (image_save img (WEBP 95)) as [data | m]; simpl;
      [| destruct (outputs s !! _); reflexivity].
    destruct return_base64; [| reflexivity].
    destruct (image_save img PNG); reflexivity.
  - destruct (image_save img PNG) as [data | m]; simpl;
      [| destruct (outputs s !! _); reflexivity].
    destruct return_base64; reflexivity.
Qed.

Lemma remove_bg_outputs (r : HttpRequest) (s : State) :
  outputs (snd (serve (PostRemove r) s)) =
  match read_image r with
  | Ok (Some (image_bytes, _)) =>
      outputs_after_try image_bytes (arg_alpha_matting r) (arg_format r) s
  | _ => outputs s
  end.
Proof.
  unfold serve, view, remove_bg.
  destruct (read_image r) as [[[image_bytes filename] |] | m]; try reflexivity.
  rewrite <- (remove_bg_try_outputs image_bytes filename _ _ (arg_base64 r) s).
  unfold try_except.
  destruct (remove_bg_try image_bytes filename _ _ _ s) as [[resp | m] s1];
    reflexivity.
Qed.

Lemma outputs_after_try_other image_bytes alpha output_format (s : State) (name : string) :
  name <> String.substring 0 8 (uuid4 (uuid_draws s)) +:+ ".png" ->
  name <> String.substring 0 8 (uuid4 (uuid_draws s)) +:+ ".webp" ->
  outputs_after_try image_bytes alpha output_format s !! name = outputs s !! name.
Proof.
  intros Hpng Hwebp. unfold outputs_after_try.
  destruct (fst (get_session s)) as [sess | m]; [| reflexivity].
  destruct (remove image_bytes sess _) as [rb | m]; [| reflexivity].
  destruct (image_open_rgba rb) as [img | m]; [| reflexivity].
  cbv zeta.
  assert (Hname : String.substring 0 8 (uuid4 (uuid_draws s)) +:+ "." +:+
                  ext_of output_format <> name).
  { destruct (ext_of_cases output_format) as [[_ ->] | [_ ->]];
      [change ("." +:+ "webp") with ".webp" | change ("." +:+ "png") with ".png"];
      congruence. }
  destruct (image_save img _) as [data | m].
  - now apply lookup_insert_ne.
  - destruct (outputs s !! _); [now apply lookup_insert_ne | reflexivity].
Qed.

End DirectoryFacts.

(** X1: no request ever removes a file: a name present in the output
    directory is still present after any sequence of requests. *)
Theorem outputs_never_lose_a_file `{E : Externals}
    (rts : list Route) (s : State) (name : string) :
  is_Some (outputs s !! name) ->
  is_Some (outputs (snd (run rts s)) !! name).
Proof.
  apply (preserves_run (fun s => is_Some (outputs s !! name))).
  - intros ev _ s0 Hs0. exact Hs0.
  - intros n d s0 Hs0. simpl. rewrite lookup_insert_is_Some.
    destruct (decide (n = name)); [now left | now right].
  - intros s0 Hs0. exact Hs0.
  - intros s0 Hs0. destruct (get_session_frame s0) as [-> _]. exact Hs0.
Qed.

(** After a first PNG, a webp request under the same identifier and a
    download leave [3f2a9c1e.png] in place. *)
Lemma outputs_never_lose_a_file_witness :
  is_Some (outputs (snd (run (E := Demo.working)
                           [PostRemove Demo.webp_inline; GetDownload "3f2a9c1e"]
                           Demo.after_first_png)) !! "3f2a9c1e.png").
Proof.
  apply (outputs_never_lose_a_file (E := Demo.working)).
  vm_compute. eauto.
Defined.

(** X2: a /remove request, whatever its outcome, leaves every file other
    than [id.png] and [id.webp] as it was, where [id] is the next
    identifier of the process. *)
Theorem remove_bg_touches_only_its_own_file `{E : Externals}
    (r : HttpRequest) (s : State) (name : string) :
  name <> String.substring 0 8 (uuid4 (uuid_draws s)) +:+ ".png" ->
  name <> String.substring 0 8 (uuid4 (uuid_draws s)) +:+ ".webp" ->
  outputs (snd (serve (PostRemove r) s)) !! name = outputs s !! name.
Proof.
  intros Hpng Hwebp. rewrite remove_bg_outputs.
  destruct (read_image r) as [[[image_bytes filename] |] | m]; try reflexivity.
  now apply outputs_after_try_other.
Qed.

Lemma remove_bg_touches_only_its_own_file_witness :
  outputs (snd (serve (E := Demo.working) (PostRemove Demo.jpeg_request)
                  Demo.after_first_png)) !! "holiday.png" =
  outputs Demo.after_first_png !! "holiday.png".
Proof.
  apply (remove_bg_touches_only_its_own_file (E := Demo.working));
    vm_compute; discriminate.
Defined.

(** X3: the [base64] option changes how the picture is returned, never
    what is stored: with and without it, with any value, the request
    leaves the same output directory. *)
Theorem base64_does_not_change_what_is_stored `{E : Externals}
    (r : HttpRequest) (s : State) (v : string) :
  outputs (snd (serve (PostRemove (with_arg "base64" v r)) s)) =
  outputs (snd (serve (PostRemove r) s)).
Proof. rewrite !remove_bg_outputs. reflexivity. Qed.

(** ** What the answer of /remove depends on *)

Section RemoveInputs.
Context `{E : Externals}.

Lemma remove_bg_try_answer image_bytes f1 f2 alpha output_format return_base64
    (s : State) :
  fst (remove_bg_try image_bytes f1 alpha output_format return_base64 s) =
  fst (remove_bg_try image_bytes f2 alpha output_format return_base64 s).
Proof.
  unfold remove_bg_try, save_output, bind, lift, new_file_id, spoil_file,
    raise, write_file, logger, ret.
  destruct (get_session s) as [[sess | m] s1]; [| reflexivity].
  destruct (remove image_bytes sess _) as [result_bytes | m]; [| reflexivity].
  destruct (image_open_rgba result_bytes) as [img | m]; [| reflexivity].
  cbv zeta.
  destruct (String.eqb (ext_of output_format) "webp").
  - destruct (image_save img (WEBP 95)) as [data | m]; simpl;
      [| destruct (outputs s1 !! _); reflexivity].
    destruct return_base64; [| reflexivity].
    destruct (image_save img PNG); reflexivity.
  - destruct (image_save img PNG) as [data | m]; simpl;
      [| destruct (outputs s1 !! _); reflexivity].
    destruct return_base64; reflexivity.
Qed.

Lemma serve_remove_same_image (r1 r2 : HttpRequest) (s : State)
    (image_bytes : bytes) (f1 f2 : JValue) :
  read_image r1 = Ok (Some (image_bytes, f1)) ->
  read_image r2 = Ok (Some (image_bytes, f2)) ->
  req_args r1 = req_args r2 ->
  fst (serve (PostRemove r1) s) = fst (serve (PostRemove r2) s) /\
  outputs (snd (serve (PostRemove r1) s)) = outputs (snd (serve (PostRemove r2) s)).
Proof.
  intros H1 H2 Hargs.
  assert (Ha : arg_alpha_matting r1 = arg_alpha_matting r2)
    by (unfold arg_alpha_matting; now rewrite Hargs).
  assert (Hf : arg_format r1 = arg_format r2)
    by (unfold arg_format; now rewrite Hargs).
  assert (Hb : arg_base64 r1 = arg_base64 r2)
    by (unfold arg_base64; now rewrite Hargs).
  split.
  - unfold serve, view, remove_bg. rewrite H1, H2, Ha, Hf, Hb.
    pose proof (remove_bg_try_answer image_bytes f1 f2 (arg_alpha_matting r2)
                  (arg_format r2) (arg_base64 r2) s) as Hfst.
    unfold try_except.
    destruct (remove_bg_try image_bytes f1 _ _ _ s) as [[resp1 | m1] s1];
      destruct (remove_bg_try image_bytes f2 _ _ _ s) as [[resp2 | m2] s2];
      simpl in Hfst; try discriminate; injection Hfst as ->; reflexivity.
  - rewrite !remove_bg_outputs, H1, H2, Ha, Hf. reflexivity.
Qed.

End RemoveInputs.

Section ReadImageFacts.
Context `{E : Externals}.

Lemma read_image_upload (r : HttpRequest) (file : Upload) :
  assoc "file" (req_files r) = Some file ->
  read_image r =
    Ok (Some (up_content file, JStr (filename_or (up_filename file) "image.png"))).
Proof. intros H. unfold read_image. now rewrite H. Qed.

Lemma read_image_json (r : HttpRequest) (fields : list (string * JValue))
    (b64 : string) (data : bytes) :
  assoc "file" (req_files r) = None ->
  req_is_json r = true ->
  req_json r = Some (JObj fields) ->
  assoc "image" fields = Some (JStr b64) ->
  b64decode b64 = Ok data ->
  exists filename, read_image r = Ok (Some (data, filename)).
Proof.
  intros Hfile Hjson Hbody Himage Hdata.
  unfold read_image, get_json_silent. rewrite Hfile, Hjson, Hbody.
  simpl. unfold has_key. rewrite Himage. simpl. rewrite Hdata.
  destruct (assoc "filename" fields); eauto.
Qed.

End ReadImageFacts.

(** X4: for multipart requests the answer and the stored files depend on
    the bytes of the [file] field and on the query string only: two
    requests that agree on these, whatever the upload's file name, their
    other fields or their bodies, get the same answer and leave the same
    output directory. *)
Theorem upload_name_does_not_change_the_answer `{E : Externals}
    (r1 r2 : HttpRequest) (s : State) (u1 u2 : Upload) :
  assoc "file" (req_files r1) = Some u1 ->
  assoc "file" (req_files r2) = Some u2 ->
  up_content u1 = up_content u2 ->
  req_args r1 = req_args r2 ->
  fst (serve (PostRemove r1) s) = fst (serve (PostRemove r2) s) /\
  outputs (snd (serve (PostRemove r1) s)) = outputs (snd (serve (PostRemove r2) s)).
Proof.
  intros H1 H2 Hc Hargs.
  apply (serve_remove_same_image r1 r2 s (up_content u1)
           (JStr (filename_or (up_filename u1) "image.png"))
           (JStr (filename_or (up_filename u2) "image.png"))).
  - now apply read_image_upload.
  - rewrite Hc. now apply read_image_upload.
  - exact Hargs.
Qed.

(** The same picture uploaded as photo.png and without a name. *)
Lemma upload_name_does_not_change_the_answer_witness :
  fst (serve (E := Demo.working)
         (PostRemove (Demo.post_file Demo.picture_a [])) (start ∅)) =
  fst (serve (E := Demo.working) (PostRemove Demo.multipart_picture) (start ∅)).
Proof.
  apply (upload_name_does_not_change_the_answer (E := Demo.working)
           (Demo.post_file Demo.picture_a []) Demo.multipart_picture (start ∅)
           (Demo.upload "photo.png" Demo.picture_a)
           {| up_filename := None; up_content := Demo.picture_a |});
    reflexivity.
Defined.

(** X5: a picture sent as base64 text in the [image] field of a JSON object
    is served like the same bytes sent as a multipart [file] with the same
    query string: same answer, same output directory. *)
Theorem json_image_is_served_like_the_upload `{E : Externals}
    (rj ru : HttpRequest) (s : State) (fields : list (string * JValue))
    (b64 : string) (file : Upload) :
  assoc "file" (req_files rj) = None ->
  req_is_json rj = true ->
  req_json rj = Some (JObj fields) ->
  assoc "image" fields = Some (JStr b64) ->
  assoc "file" (req_files ru) = Some file ->
  b64decode b64 = Ok (up_content file) ->
  req_args rj = req_args ru ->
  fst (serve (PostRemove rj) s) = fst (serve (PostRemove ru) s) /\
  outputs (snd (serve (PostRemove rj) s)) = outputs (snd (serve (PostRemove ru) s)).
Proof.
  intros Hnofile Hjson Hbody Himage Hfile Hdata Hargs.
  destruct (read_image_json rj fields b64 (up_content file)
              Hnofile Hjson Hbody Himage Hdata) as [filename Hread].
  apply (serve_remove_same_image rj ru s (up_content file) filename
           (JStr (filename_or (up_filename file) "image.png"))).
  - exact Hread.
  - now apply read_image_upload.
  - exact Hargs.
Qed.

Lemma json_image_is_served_like_the_upload_witness :
  fst (serve (E := Demo.working) (PostRemove Demo.json_picture) (start ∅)) =
  fst (serve (E := Demo.working) (PostRemove Demo.multipart_picture) (start ∅)).
Proof.
  apply (json_image_is_served_like_the_upload (E := Demo.working)
           Demo.json_picture Demo.multipart_picture (start ∅)
           [("image", JStr (Demo.to_text Demo.picture_a));
            ("filename", JStr "holiday.png")]
           (Demo.to_text Demo.picture_a)
           {| up_filename := None; up_content := Demo.picture_a |});
    reflexivity.
Defined.

(** X6: [format] is compared after lowercasing, so webp in any letter case
    is served as [format=webp]; on success the file written is [id.webp],
    encoded as WEBP with quality 95, and the answer is that file under
    image/webp or, inline, the PNG encoding of the same picture. *)
Theorem format_webp_in_any_case `{E : Externals} (r : HttpRequest) (s : State) :
  arg_format r = "webp" ->
  serve (PostRemove r) s = serve (PostRemove (with_arg "format" "webp" r)) s /\
  (resp_status (fst (serve (PostRemove r) s)) = 200 ->
   exists file_id img data,
     image_save img (WEBP 95) = Ok data /\
     outputs (snd (serve (PostRemove r) s)) !! (file_id +:+ ".webp") = Some data /\
     (fst (serve (PostRemove r) s) =
        send_file data (Some "image/webp") (file_id +:+ ".webp") false \/
      exists png,
        image_save img PNG = Ok png /\
        fst (serve (PostRemove r) s) =
          jsonify (JObj [("id", JStr file_id);
                         ("filename", JStr (file_id +:+ ".webp"));
                         ("image", JStr (b64encode png));
                         ("time", JFloat)]))).
Proof.
  intros Hfmt. split.
  - apply serve_remove_same_ext; try reflexivity. now rewrite Hfmt.
  - intros Hok.
    destruct (serve_remove_ok r s Hok) as (image_bytes & filename & _ & Hrun).
    apply remove_bg_try_returns in Hrun.
    destruct Hrun as (sess & s1 & rb & img & data & _ & _ & _ & Hsave & Hs' & Hresp).
    cbv zeta in Hsave, Hs', Hresp. rewrite Hfmt in Hsave, Hs', Hresp.
    change (ext_of "webp") with "webp" in Hsave, Hs', Hresp.
    change (format_of_ext "webp") with (WEBP 95) in Hsave.
    change ("." +:+ "webp") with ".webp" in Hs', Hresp.
    exists (String.substring 0 8 (uuid4 (uuid_draws s))), img, data.
    split; [exact Hsave |]. split.
    + rewrite Hs'. simpl. apply lookup_insert_eq.
    + destruct (arg_base64 r).
      * right. exact Hresp.
      * left. exact Hresp.
Qed.

Lemma format_webp_in_any_case_witness :
  fst (serve (E := Demo.working) (PostRemove Demo.mixed_case_webp) (start ∅)) =
  send_file [Byte.x52; Byte.x61; Byte.x62] (Some "image/webp") "3f2a9c1e.webp" false.
Proof.
  destruct (format_webp_in_any_case (E := Demo.working)
              Demo.mixed_case_webp (start ∅) eq_refl) as [Hsame _].
  rewrite Hsame. reflexivity.
Defined.

(** ** A model that cannot be constructed *)

(** X7: a failed construction is not remembered.  While [new_session]
    refuses the configured model, no session is ever cached, every /remove
    request that carries an image is answered 500 with the construction's
    message after trying the construction again (the logger gains the
    loading and the error records, nothing is stored, no identifier is
    drawn), and /health still answers healthy without touching the
    state. *)
Theorem failed_construction_is_retried `{E : Externals} (msg : string) :
  new_session MODEL_NAME = Raise msg ->
  (forall rts s, session s = None -> session (snd (run rts s)) = None) /\
  (forall r s x, session s = None -> read_image r = Ok (Some x) ->
     serve (PostRemove r) s =
       (jsonify_status (error_json msg) 500,
        {| session := None; outputs := outputs s; uuid_draws := uuid_draws s;
           log := (log s ++ [LogLoading MODEL_NAME]) ++ [LogError msg] |})) /\
  (forall s,
     serve GetHealth s =
       (jsonify (JObj [("status", JStr "healthy"); ("model", JStr MODEL_NAME)]), s)).
Proof.
  intros Hfail. split; [| split].
  - intros rts. apply (preserves_run (fun s => session s = None)).
    + intros ev _ s0 Hs0. exact Hs0.
    + intros n d s0 Hs0. exact Hs0.
    + intros s0 Hs0. exact Hs0.
    + intros s0 Hs0. rewrite (get_session_first s0 Hs0), Hfail. reflexivity.
  - intros r s [image_bytes filename] Hs Hread.
    unfold serve, view, remove_bg. rewrite Hread.
    unfold try_except, remove_bg_try. unfold bind at 1.
    rewrite (get_session_first s Hs), Hfail. reflexivity.
  - intros s. reflexivity.
Qed.

Lemma failed_construction_is_retried_witness :
  serve (E := Demo.unknown_model)
    (PostRemove (Demo.post_file Demo.picture_a [])) (start ∅) =
  (jsonify_status (error_json "No session class found for model u2net_xl") 500,
   {| session := None; outputs := ∅; uuid_draws := 0;
      log := [LogLoading "u2net_xl";
              LogError "No session class found for model u2net_xl"] |}).
Proof.
  destruct (failed_construction_is_retried (E := Demo.unknown_model)
              "No session class found for model u2net_xl" eq_refl)
    as (_ & Hremove & _).
  exact (Hremove (Demo.post_file Demo.picture_a []) (start ∅)
           (Demo.picture_a, JStr "photo.png") eq_refl eq_refl).
Defined.

(** ** Requests that are turned away *)

(** X8: a request without input is answered 400 before anything else
    happens: the state is unchanged, so no model is loaded, no identifier
    drawn and nothing logged.  This covers a /remove request that is not
    JSON and has no [file] field, a /remove request whose JSON object has
    no [image] key, and a /remove/batch request without a [files] field. *)
Theorem rejected_requests_change_nothing `{E : Externals}
    (r : HttpRequest) (s : State) :
  (assoc "file" (req_files r) = None -> req_is_json r = false ->
   serve (PostRemove r) s =
     (jsonify_status (error_json "Envía una imagen como 'file' o en base64") 400, s)) /\
  (forall fields,
     assoc "file" (req_files r) = None -> req_is_json r = true ->
     req_json r = Some (JObj fields) -> assoc "image" fields = None ->
     serve (PostRemove r) s =
       (jsonify_status (error_json "Envía una imagen como 'file' o en base64") 400, s)) /\
  (getlist "files" (req_files r) = [] ->
   serve (PostRemoveBatch r) s =
     (jsonify_status (error_json "Envía imágenes en el campo 'files'") 400, s)).
Proof.
  split; [| split].
  - intros Hfile Hjson. unfold serve, view, remove_bg, read_image.
    rewrite Hfile, Hjson. reflexivity.
  - intros fields Hfile Hjson Hbody Himage.
    unfold serve, view, remove_bg, read_image, get_json_silent.
    rewrite Hfile, Hjson, Hbody. simpl. unfold has_key. rewrite Himage.
    reflexivity.
  - intros Hfiles. unfold serve, view, remove_bg_batch.
    rewrite has_key_getlist, Hfiles. reflexivity.
Qed.

(** X9: the second guard of [remove_bg_batch] never fires: a request whose
    [files] field is present has at least one upload under it, so no
    request is ever answered "No se recibieron archivos". *)
Theorem batch_second_guard_is_unreachable `{E : Externals}
    (r : HttpRequest) (s : State) :
  fst (serve (PostRemoveBatch r) s) <>
  jsonify_status (error_json "No se recibieron archivos") 400.
Proof.
  unfold serve, view.
  destruct (getlist "files" (req_files r)) as [| file rest] eqn:Hfiles.
  - unfold remove_bg_batch. rewrite has_key_getlist, Hfiles. simpl. discriminate.
  - assert (Hne : getlist "files" (req_files r) <> []) by (rewrite Hfiles; discriminate).
    rewrite (remove_bg_batch_with_files r s Hne).
    destruct (get_session s) as [[sess | m] s1]; [| simpl; discriminate].
    destruct (batch_loop_entries sess (getlist "files" (req_files r)) [] s1)
      as (entries & s2 & Hloop & _).
    rewrite Hloop. simpl. discriminate.
Qed.

(** ** Exceptions that leave a view *)

(** X10: Flask's HTML 500 page is the answer exactly when reading the image
    of a /remove request raises, or when a /remove/batch request with files
    cannot get its session; every other request of every route gets a JSON
    or file body. *)
Theorem html_500_exactly_when_the_view_raises `{E : Externals}
    (rt : Route) (s : State) :
  resp_body (fst (serve rt s)) = BHtmlServerError <->
  (exists r msg, rt = PostRemove r /\ read_image r = Raise msg) \/
  (exists r msg, rt = PostRemoveBatch r /\
     getlist "files" (req_files r) <> [] /\ fst (get_session s) = Raise msg).
Proof.
  split.
  - destruct rt as [| | r | r | file_id].
    + discriminate.
    + discriminate.
    + unfold serve, view, remove_bg.
      destruct (read_image r) as [[[image_bytes filename] |] | m] eqn:Hread.
      * unfold try_except.
        destruct (remove_bg_try image_bytes filename _ _ _ s) as [[resp | m] s1] eqn:Hrun;
          simpl; [| discriminate].
        apply remove_bg_try_returns in Hrun.
        destruct Hrun as (? & ? & ? & ? & ? & _ & _ & _ & _ & _ & Hresp).
        destruct (arg_base64 r).
        -- destruct Hresp as (png & _ & ->). discriminate.
        -- rewrite Hresp. discriminate.
      * discriminate.
      * intros _. left. now exists r, m.
    + unfold serve, view.
      destruct (getlist "files" (req_files r)) as [| file rest] eqn:Hfiles.
      * unfold remove_bg_batch. rewrite has_key_getlist, Hfiles. discriminate.
      * assert (Hne : getlist "files" (req_files r) <> [])
          by (rewrite Hfiles; discriminate).
        rewrite (remove_bg_batch_with_files r s Hne).
        destruct (get_session s) as [[sess | m] s1] eqn:Hget.
        -- destruct (batch_loop_entries sess (getlist "files" (req_files r)) [] s1)
             as (entries & s2 & Hloop & _).
           rewrite Hloop. discriminate.
        -- intros _. right. exists r, m. rewrite Hfiles. repeat split. discriminate.
    + rewrite serve_download. simpl.
      destruct (outputs s !! (file_id +:+ ".png")); [discriminate |].
      destruct (outputs s !! (file_id +:+ ".webp")); discriminate.
  - intros [(r & msg & -> & Hread) | (r & msg & -> & Hne & Hget)].
    + unfold serve, view, remove_bg. rewrite Hread. reflexivity.
    + unfold serve, view. rewrite (remove_bg_batch_with_files r s Hne).
      destruct (get_session s) as [[sess | m] s1]; [discriminate | reflexivity].
Qed.

(** ** Answers that can be followed up *)

Section BatchAnswers.
Context `{E : Externals}.

Lemma serve_batch_ok (r : HttpRequest) (s s1 : State) (sess : Session) :
  get_session s = (Ok sess, s1) ->
  getlist "files" (req_files r) <> [] ->
  exists entries s2,
    serve (PostRemoveBatch r) s =
      (jsonify (JObj [("processed", JInt (Z.of_nat (length entries)));
                      ("results", JArr entries)]), s2) /\
    Forall2 (entry_of sess (outputs s2)) (getlist "files" (req_files r)) entries /\
    session s2 = session s1.
Proof.
  intros Hget Hne. unfold serve, view.
  rewrite (remove_bg_batch_with_files r s Hne), Hget.
  destruct (batch_loop_entries sess (getlist "files" (req_files r)) [] s1)
    as (entries & s2 & Hloop & Hall & Hs2 & _).
  exists entries, s2. rewrite Hloop. simpl. repeat split; assumption.
Qed.

End BatchAnswers.

(** X11: a batch that gets its session answers 200 with one result per
    upload, in order, whatever the number of malformed uploads: an upload
    whose processing raises gets the error entry with the message, and
    every other upload gets an ok entry whose download link works, that is
    GET /download/id on the state the batch leaves sends a file named
    [id.png] as an attachment.  The session is cached afterwards, and the
    query string and the body of the request play no part. *)
Theorem batch_results_follow_uploads `{E : Externals}
    (r : HttpRequest) (s : State) (sess : Session) :
  fst (get_session s) = Ok sess ->
  getlist "files" (req_files r) <> [] ->
  let s' := snd (serve (PostRemoveBatch r) s) in
  (exists results,
     fst (serve (PostRemoveBatch r) s) =
       jsonify (JObj
         [("processed", JInt (Z.of_nat (length (getlist "files" (req_files r)))));
          ("results", JArr results)]) /\
     length results = length (getlist "files" (req_files r)) /\
     forall i file, getlist "files" (req_files r) !! i = Some file ->
       match item_encoded sess file with
       | Raise msg =>
           results !! i =
             Some (JObj [("original", jstr_opt (up_filename file));
                         ("status", JStr "error"); ("error", JStr msg)])
       | Ok _ =>
           exists file_id content,
             results !! i =
               Some (JObj [("original", jstr_opt (up_filename file));
                           ("id", JStr file_id);
                           ("filename", JStr (file_id +:+ ".png"));
                           ("download", JStr ("/download/" +:+ file_id));
                           ("time", JFloat);
                           ("status", JStr "ok")]) /\
             serve (GetDownload file_id) s' =
               (send_file content None (file_id +:+ ".png") true, s')
       end) /\
  session s' = Some sess /\
  (forall r', req_files r' = req_files r ->
     serve (PostRemoveBatch r') s = serve (PostRemoveBatch r) s).
Proof.
  intros Hsess Hne s'. subst s'.
  destruct (get_session s) as [[sess' | m] s1] eqn:Hget; simpl in Hsess;
    [| discriminate].
  injection Hsess as ->.
  destruct (serve_batch_ok r s s1 sess Hget Hne) as (entries & s2 & Hserve & Hall & Hs2).
  destruct (get_session_ok s s1 sess Hget) as (Hs1 & _).
  rewrite Hserve. simpl.
  pose proof (Forall2_length _ _ _ Hall) as Hlen.
  split; [| split].
  - exists entries. rewrite Hlen.
    split; [reflexivity |]. split; [reflexivity |].
    intros i file Hfile.
    destruct (Forall2_lookup_l _ _ _ _ _ Hall Hfile) as (entry & Hentry & Hof).
    unfold entry_of in Hof.
    destruct (item_encoded sess file) as [data | msg].
    + destruct Hof as (file_id & -> & [content Hstored]).
      exists file_id, content. split; [exact Hentry |].
      rewrite serve_download, Hstored. reflexivity.
    + now rewrite Hentry, Hof.
  - congruence.
  - intros r' Hfiles. rewrite <- Hserve.
    unfold serve, view, remove_bg_batch. now rewrite Hfiles.
Qed.

(** On three uploads of which the second is not a picture: the session is
    cached by the batch. *)
Lemma batch_results_follow_uploads_witness :
  session (snd (serve (E := Demo.working)
                  (PostRemoveBatch Demo.three_files) (start ∅))) = Some "u2net".
Proof.
  assert (Hne : getlist "files" (req_files Demo.three_files) <> []) by discriminate.
  exact (proj1 (proj2 (batch_results_follow_uploads (E := Demo.working)
                         Demo.three_files (start ∅) "u2net" eq_refl Hne))).
Defined.

(** X12: the identifier in a successful /remove answer can always be
    downloaded: on the state the request leaves, GET /download/id sends a
    file named [id.png] or [id.webp] as an attachment, never 404. *)
Theorem stored_file_can_be_downloaded `{E : Externals}
    (r : HttpRequest) (s : State) :
  resp_status (fst (serve (PostRemove r) s)) = 200 ->
  let s' := snd (serve (PostRemove r) s) in
  exists file_id content ext,
    (ext = "png" \/ ext = "webp") /\
    serve (GetDownload file_id) s' =
      (send_file content None (file_id +:+ "." +:+ ext) true, s') /\
    ((exists out_filename b64,
        fst (serve (PostRemove r) s) =
          jsonify (JObj [("id", JStr file_id);
                         ("filename", JStr out_filename);
                         ("image", JStr b64);
                         ("time", JFloat)])) \/
     (exists data mimetype,
        fst (serve (PostRemove r) s) =
          send_file data mimetype
            (file_id +:+ "." +:+ ext_of (arg_format r)) false)).
Proof.
  intros Hok s'.
  destruct (serve_remove_ok r s Hok) as (image_bytes & filename & _ & Hrun).
  apply remove_bg_try_returns in Hrun.
  destruct Hrun as (sess & s1 & rb & img & data & _ & _ & _ & _ & Hs' & Hresp).
  cbv zeta in Hs', Hresp. fold s' in Hs'.
  set (file_id := String.substring 0 8 (uuid4 (uuid_draws s))) in *.
  assert (Hanswer :
    (exists out_filename b64,
        fst (serve (PostRemove r) s) =
          jsonify (JObj [("id", JStr file_id);
                         ("filename", JStr out_filename);
                         ("image", JStr b64);
                         ("time", JFloat)])) \/
     (exists data mimetype,
        fst (serve (PostRemove r) s) =
          send_file data mimetype
            (file_id +:+ "." +:+ ext_of (arg_format r)) false)).
  { destruct (arg_base64 r).
    - left. destruct Hresp as (png & _ & Hresp). eauto.
    - right. eauto. }
  assert (Hstored : outputs s' !! (file_id +:+ "." +:+ ext_of (arg_format r)) = Some data).
  { rewrite Hs'. simpl. apply lookup_insert_eq. }
  destruct (outputs s' !! (file_id +:+ ".png")) as [content |] eqn:Hpng.
  - exists file_id, content, "png". split; [now left |]. split; [| exact Hanswer].
    rewrite serve_download, Hpng. reflexivity.
  - exists file_id, data, "webp". split; [now right |]. split; [| exact Hanswer].
    rewrite serve_download, Hpng.
    destruct (ext_of_cases (arg_format r)) as [[_ Hext] | [_ Hext]];
      rewrite Hext in Hstored.
    + change ("." +:+ "webp") with ".webp" in Hstored. rewrite Hstored. reflexivity.
    + change ("." +:+ "png") with ".png" in Hstored. congruence.
Qed.

(** After an identifier collision with an older PNG the download still
    answers with a file. *)
Lemma stored_file_can_be_downloaded_witness :
  exists file_id content ext,
    serve (E := Demo.working) (GetDownload file_id)
      (snd (serve (E := Demo.working) (PostRemove Demo.webp_inline)
              Demo.after_first_png)) =
    (send_file content None (file_id +:+ "." +:+ ext) true,
     snd (serve (E := Demo.working) (PostRemove Demo.webp_inline)
            Demo.after_first_png)).
Proof.
  destruct (stored_file_can_be_downloaded (E := Demo.working)
              Demo.webp_inline Demo.after_first_png eq_refl)
    as (file_id & content & ext & _ & Hdown & _).
  exists file_id, content, ext. exact Hdown.
Defined.

(** ** Parameters that play no part *)

(** X13: a query parameter other than [alpha_matting], [format] and
    [base64] changes neither the answer of /remove nor the state. *)
Theorem unknown_query_parameters_are_ignored `{E : Externals}
    (key value : string) (r : HttpRequest) (s : State) :
  key <> "alpha_matting" -> key <> "format" -> key <> "base64" ->
  serve (PostRemove (with_arg key value r)) s = serve (PostRemove r) s.
Proof.
  intros Ha Hf Hb.
  apply String.eqb_neq in Ha, Hf, Hb.
  unfold serve, view, remove_bg.
  change (read_image (with_arg key value r)) with (read_image r).
  unfold arg_alpha_matting, arg_format, arg_base64, args_get. simpl.
  rewrite Ha, Hf, Hb. reflexivity.
Qed.

Lemma unknown_query_parameters_are_ignored_witness :
  serve (E := Demo.working)
    (PostRemove (with_arg "quality" "10" Demo.mixed_case_webp)) (start ∅) =
  serve (E := Demo.working) (PostRemove Demo.mixed_case_webp) (start ∅).
Proof.
  apply (unknown_query_parameters_are_ignored (E := Demo.working));
    discriminate.
Defined.

(** ** The two POST routes against each other *)

Section BatchOfOne.
Context `{E : Externals}.

Lemma batch_item_outputs (sess : Session) (file : Upload) (s : State) :
  outputs (snd (batch_item sess file s)) =
  match remove (up_content file) sess remove_defaults with
  | Raise _ => outputs s
  | Ok result_bytes =>
      match image_open_rgba result_bytes with
      | Raise _ => outputs s
      | Ok img =>
          let name := String.substring 0 8 (uuid4 (uuid_draws s)) +:+ ".png" in
          match image_save img PNG with
          | Raise _ =>
              match outputs s !! name with
              | Some _ => <[name := image_save_partial img PNG]> (outputs s)
              | None => outputs s
              end
          | Ok data => <[name := data]> (outputs s)
          end
      end
  end.
Proof.
  unfold batch_item, try_except, save_output, bind, lift, new_file_id,
    spoil_file, raise, write_file, ret.
  destruct (remove (up_content file) sess remove_defaults) as [rb | m]; simpl;
    [| reflexivity].
  destruct (image_open_rgba rb) as [img | m]; simpl; [| reflexivity].
  destruct (image_save img PNG) as [data | m]; simpl; [reflexivity |].
  destruct (outputs s !! _); reflexivity.
Qed.

End BatchOfOne.

(** X14: a batch of one upload stores exactly what /remove stores for the
    same upload with the default options (no alpha matting, a format other
    than webp): the two requests leave the same output directory, whether
    the processing succeeds or fails. *)
Theorem batch_of_one_stores_like_remove `{E : Externals}
    (rs rb : HttpRequest) (file : Upload) (s : State) :
  assoc "file" (req_files rs) = Some file ->
  arg_alpha_matting rs = false ->
  arg_format rs <> "webp" ->
  getlist "files" (req_files rb) = [file] ->
  outputs (snd (serve (PostRemoveBatch rb) s)) =
  outputs (snd (serve (PostRemove rs) s)).
Proof.
  intros Hfile Halpha Hfmt Hfiles.
  rewrite remove_bg_outputs, (read_image_upload rs file Hfile), Halpha.
  unfold outputs_after_try.
  destruct (ext_of_cases (arg_format rs)) as [[Hw _] | [_ Hext]]; [contradiction |].
  rewrite Hext. change (format_of_ext "png") with PNG.
  change ("." +:+ "png") with ".png".
  assert (Hne : getlist "files" (req_files rb) <> []) by (rewrite Hfiles; discriminate).
  unfold serve, view. rewrite (remove_bg_batch_with_files rb s Hne), Hfiles.
  destruct (get_session_frame s) as [Hout Hdraws].
  destruct (get_session s) as [[sess | m] s1]; simpl in *; [| exact Hout].
  unfold bind.
  pose proof (batch_item_outputs sess file s1) as Hitem.
  change {| alpha_matting := false;
            alpha_matting_foreground_threshold := 240;
            alpha_matting_background_threshold := 10;
            alpha_matting_erode_size := 10 |} with remove_defaults.
  cbv zeta in Hitem. rewrite Hout, Hdraws in Hitem.
  destruct (batch_item sess file s1) as [[entry | m] s2]; simpl in *;
    exact Hitem.
Qed.

Lemma batch_of_one_stores_like_remove_witness :
  outputs (snd (serve (E := Demo.working) (PostRemoveBatch Demo.one_file) (start ∅))) =
  outputs (snd (serve (E := Demo.working)
                  (PostRemove
                     {| req_files := [("file", Demo.upload "a.png" Demo.picture_a)];
                        req_is_json := false; req_json := None; req_args := [] |})
                  (start ∅))).
Proof.
  apply (batch_of_one_stores_like_remove (E := Demo.working)
           {| req_files := [("file", Demo.upload "a.png" Demo.picture_a)];
              req_is_json := false; req_json := None; req_args := [] |}
           Demo.one_file (Demo.upload "a.png" Demo.picture_a) (start ∅)).
  - reflexivity.
  - reflexivity.
  - vm_compute. discriminate.
  - reflexivity.
Defined.

(** * The session: one request at a time, and overlapping requests *)

Section SessionEngine.
Context `{E : Externals}.

(** A thread that runs [get_session] alone, statement by statement, ends
    where the function as a whole ends. *)
Lemma get_session_steps_agree (s : State) :
  interleave [0; 0; 0; 0; 0] [AtTest] s =
    ([match fst (get_session s) with
      | Ok h => Returned (Some h)
      | Raise msg => Raised msg
      end], snd (get_session s)).
Proof.
  destruct s as [[h |] outs draws lg]; unfold get_session; simpl.
  - reflexivity.
  - unfold bind, lift, logger, set_session, ret. simpl.
    destruct (new_session MODEL_NAME); reflexivity.
Qed.

Lemma interleave_cached (h : Session) (schedule : list nat) :
  forall (threads : list Pc) (s : State),
    session s = Some h ->
    Forall (settled h) threads ->
    snd (interleave schedule threads s) = s /\
    Forall (settled h) (fst (interleave schedule threads s)).
Proof.
  induction schedule as [| t rest IH]; intros threads s Hs Hall; simpl.
  - now split.
  - destruct (threads !! t) as [pc |] eqn:Hpc; [| now apply IH].
    assert (Hstep : exists pc', get_session_step pc s = (pc', s) /\ settled h pc').
    { pose proof (proj1 (Forall_lookup _ _) Hall t pc Hpc) as [-> | [-> | ->]];
        simpl; rewrite ?Hs; eexists; (split; [reflexivity |]);
        unfold settled; tauto. }
    destruct Hstep as (pc' & -> & Hpc').
    apply IH; [exact Hs |]. now apply Forall_insert.
Qed.

Lemma serve_remove_on_cached_failure (r : HttpRequest) (s : State) (h : Session)
    (image_bytes : bytes) (filename : JValue) (msg : string) :
  session s = Some h ->
  read_image r = Ok (Some (image_bytes, filename)) ->
  (remove image_bytes h
     {| alpha_matting := arg_alpha_matting r;
        alpha_matting_foreground_threshold := 240;
        alpha_matting_background_threshold := 10;
        alpha_matting_erode_size := 10 |} = Raise msg \/
   exists rb,
     remove image_bytes h
       {| alpha_matting := arg_alpha_matting r;
          alpha_matting_foreground_threshold := 240;
          alpha_matting_background_threshold := 10;
          alpha_matting_erode_size := 10 |} = Ok rb /\
     image_open_rgba rb = Raise msg) ->
  serve (PostRemove r) s =
    (jsonify_status (error_json msg) 500,
     {| session := Some h; outputs := outputs s; uuid_draws := uuid_draws s;
        log := log s ++ [LogError msg] |}).
Proof.
  intros Hs Hread Hfail.
  destruct s as [sess outs draws lg]. simpl in Hs. subst sess.
  unfold serve, view, remove_bg. rewrite Hread.
  unfold try_except, remove_bg_try, bind, lift, get_session, ret. simpl.
  destruct Hfail as [Hrem | (rb & Hrem & Hopen)]; rewrite Hrem; simpl;
    [| rewrite Hopen]; reflexivity.
Qed.

Lemma serve_remove_on_cached_success (r : HttpRequest) (s : State) (h : Session)
    (image_bytes : bytes) (filename : JValue) (rb : bytes) (img : Image)
    (data png : bytes) :
  session s = Some h ->
  read_image r = Ok (Some (image_bytes, filename)) ->
  remove image_bytes h
    {| alpha_matting := arg_alpha_matting r;
       alpha_matting_foreground_threshold := 240;
       alpha_matting_background_threshold := 10;
       alpha_matting_erode_size := 10 |} = Ok rb ->
  image_open_rgba rb = Ok img ->
  image_save img (format_of_ext (ext_of (arg_format r))) = Ok data ->
  image_save img PNG = Ok png ->
  let file_id := String.substring 0 8 (uuid4 (uuid_draws s)) in
  let out_filename := file_id +:+ "." +:+ ext_of (arg_format r) in
  serve (PostRemove r) s =
    (if arg_base64 r then
       jsonify (JObj [("id", JStr file_id);
                      ("filename", JStr out_filename);
                      ("image", JStr (b64encode png));
                      ("time", JFloat)])
     else
       send_file data
         (Some (if String.eqb (ext_of (arg_format r)) "webp"
                then "image/webp" else "image/png"))
         out_filename false,
     {| session := Some h;
        outputs := <[out_filename := data]> (outputs s);
        uuid_draws := S (uuid_draws s);
        log := log s ++ [LogDone filename out_filename] |}).
Proof.
  intros Hs Hread Hrem Hopen Hsave Hpng file_id out_filename.
  subst file_id out_filename.
  destruct s as [sess outs draws lg]. simpl in Hs. subst sess.
  unfold serve, view, remove_bg. rewrite Hread.
  unfold try_except, remove_bg_try, save_output, bind, lift, get_session,
    new_file_id, write_file, logger, ret. simpl.
  rewrite Hrem. simpl. rewrite Hopen. simpl.
  unfold format_of_ext in Hsave.
  destruct (String.eqb (ext_of (arg_format r)) "webp").
  - rewrite Hsave. simpl. destruct (arg_base64 r); simpl;
      rewrite ?Hpng, ?Hsave; reflexivity.
  - assert (png = data) by congruence. subst png.
    rewrite Hsave. simpl. destruct (arg_base64 r); simpl;
      rewrite ?Hsave; reflexivity.
Qed.

Lemma serve_remove_first (r : HttpRequest) (s : State) (h : Session)
    (x : bytes * JValue) :
  session s = None ->
  new_session MODEL_NAME = Ok h ->
  read_image r = Ok (Some x) ->
  let cached := {| session := Some h; outputs := outputs s;
                   uuid_draws := uuid_draws s; log := log s |} in
  session (snd (serve (PostRemove r) s)) = Some h /\
  fst (serve (PostRemove r) s) = fst (serve (PostRemove r) cached) /\
  outputs (snd (serve (PostRemove r) s)) = outputs (snd (serve (PostRemove r) cached)).
Proof.
  intros Hs Hnew Hread cached. subst cached.
  destruct x as [image_bytes filename].
  destruct s as [sess outs draws lg]. simpl in Hs. subst sess.
  unfold serve, view, remove_bg. rewrite Hread.
  unfold try_except, remove_bg_try, save_output, bind, lift, get_session,
    new_file_id, spoil_file, raise, set_session, write_file, logger, ret.
  simpl. rewrite Hnew. simpl.
  destruct (remove image_bytes h _) as [rb | m]; simpl; [| tauto].
  destruct (image_open_rgba rb) as [img | m]; simpl; [| tauto].
  destruct (String.eqb (ext_of (arg_format r)) "webp").
  - destruct (image_save img (WEBP 95)) as [data | m]; simpl.
    + destruct (arg_base64 r); simpl; [| tauto].
      destruct (image_save img PNG); simpl; tauto.
    + destruct (outs !! _); simpl; tauto.
  - destruct (image_save img PNG) as [data | m]; simpl.
    + destruct (arg_base64 r); simpl; tauto.
    + destruct (outs !! _); simpl; tauto.
Qed.

End SessionEngine.

(** C1, as the specification words it, fails when first requests overlap:
    two threads both pass the test of line 35 before either has assigned
    the global, so both construct a session; the logger records two
    completed constructions. *)
Lemma overlapping_first_requests_construct_twice :
  fst (interleave (E := Demo.working) [0; 1; 0; 0; 0; 0; 1; 1; 1; 1]
         [AtTest; AtTest] (start ∅)) =
    [Returned (E := Demo.working) (Some "u2net");
     Returned (E := Demo.working) (Some "u2net")] /\
  log (snd (interleave (E := Demo.working) [0; 1; 0; 0; 0; 0; 1; 1; 1; 1]
              [AtTest; AtTest] (start ∅))) =
    [LogLoading "u2net"; LogLoaded; LogLoading "u2net"; LogLoaded] /\
  loaded_count
    (log (snd (interleave (E := Demo.working) [0; 1; 0; 0; 0; 0; 1; 1; 1; 1]
                 [AtTest; AtTest] (start ∅)))) = 2.
Proof. repeat split. Qed.

(** C1 (as amended): while requests are served one at a time the rembg
    session is one per process.  [get_session] builds it from the
    configured [MODEL_NAME] when none is cached and caches it; a call that
    finds a session returns that one and builds nothing; no request
    replaces a cached session; over any sequence of requests the logger
    records at most one completed construction.  The engine that runs is
    the cached one: with [h] cached, /remove answers from
    [remove image_bytes h] (its failure, the failure of decoding its
    result, or the picture it yields) and /remove/batch builds every entry
    from [h]; the first /remove of a process caches what it constructed
    and answers as if that session had been cached before.  The [model]
    parameter, in the query string or in the JSON body, changes neither
    answer nor state.  Once a session is cached, calls of [get_session]
    that overlap, in any order, construct nothing and return it; a thread
    running [get_session] alone, statement by statement, does what the
    function does. *)
Theorem session_is_process_wide_singleton `{E : Externals} :
  (forall s, session s = None ->
     get_session s =
       match new_session MODEL_NAME with
       | Ok h =>
           (Ok h, {| session := Some h; outputs := outputs s;
                     uuid_draws := uuid_draws s;
                     log := (log s ++ [LogLoading MODEL_NAME]) ++ [LogLoaded] |})
       | Raise msg =>
           (Raise msg, {| session := None; outputs := outputs s;
                          uuid_draws := uuid_draws s;
                          log := log s ++ [LogLoading MODEL_NAME] |})
       end) /\
  (forall s h, session s = Some h -> get_session s = (Ok h, s)) /\
  (forall s h rt, session s = Some h -> session (snd (serve rt s)) = Some h) /\
  (forall dir rts, loaded_count (log (snd (run rts (start dir)))) <= 1) /\
  (forall r model s,
     serve (PostRemove (with_arg "model" model r)) s = serve (PostRemove r) s) /\
  (forall r model s,
     serve (PostRemove (with_json_field "model" model r)) s = serve (PostRemove r) s) /\
  (forall r s h image_bytes filename msg,
     session s = Some h ->
     read_image r = Ok (Some (image_bytes, filename)) ->
     (remove image_bytes h
        {| alpha_matting := arg_alpha_matting r;
           alpha_matting_foreground_threshold := 240;
           alpha_matting_background_threshold := 10;
           alpha_matting_erode_size := 10 |} = Raise msg \/
      exists rb,
        remove image_bytes h
          {| alpha_matting := arg_alpha_matting r;
             alpha_matting_foreground_threshold := 240;
             alpha_matting_background_threshold := 10;
             alpha_matting_erode_size := 10 |} = Ok rb /\
        image_open_rgba rb = Raise msg) ->
     serve (PostRemove r) s =
       (jsonify_status (error_json msg) 500,
        {| session := Some h; outputs := outputs s; uuid_draws := uuid_draws s;
           log := log s ++ [LogError msg] |})) /\
  (forall r s h image_bytes filename rb img data png,
     session s = Some h ->
     read_image r = Ok (Some (image_bytes, filename)) ->
     remove image_bytes h
       {| alpha_matting := arg_alpha_matting r;
          alpha_matting_foreground_threshold := 240;
          alpha_matting_background_threshold := 10;
          alpha_matting_erode_size := 10 |} = Ok rb ->
     image_open_rgba rb = Ok img ->
     image_save img (format_of_ext (ext_of (arg_format r))) = Ok data ->
     image_save img PNG = Ok png ->
     let file_id := String.substring 0 8 (uuid4 (uuid_draws s)) in
     let out_filename := file_id +:+ "." +:+ ext_of (arg_format r) in
     serve (PostRemove r) s =
       (if arg_base64 r then
          jsonify (JObj [("id", JStr file_id);
                         ("filename", JStr out_filename);
                         ("image", JStr (b64encode png));
                         ("time", JFloat)])
        else
          send_file data
            (Some (if String.eqb (ext_of (arg_format r)) "webp"
                   then "image/webp" else "image/png"))
            out_filename false,
        {| session := Some h;
           outputs := <[out_filename := data]> (outputs s);
           uuid_draws := S (uuid_draws s);
           log := log s ++ [LogDone filename out_filename] |})) /\
  (forall r s h,
     session s = Some h ->
     getlist "files" (req_files r) <> [] ->
     exists results,
       fst (serve (PostRemoveBatch r) s) =
         jsonify (JObj [("processed", JInt (Z.of_nat (length results)));
                        ("results", JArr results)]) /\
       forall i file, getlist "files" (req_files r) !! i = Some file ->
         match item_encoded h file with
         | Raise msg =>
             results !! i =
               Some (JObj [("original", jstr_opt (up_filename file));
                           ("status", JStr "error"); ("error", JStr msg)])
         | Ok _ =>
             exists file_id,
               results !! i =
                 Some (JObj [("original", jstr_opt (up_filename file));
                             ("id", JStr file_id);
                             ("filename", JStr (file_id +:+ ".png"));
                             ("download", JStr ("/download/" +:+ file_id));
                             ("time", JFloat);
                             ("status", JStr "ok")])
         end) /\
  (forall r s h x,
     session s = None ->
     new_session MODEL_NAME = Ok h ->
     read_image r = Ok (Some x) ->
     let cached := {| session := Some h; outputs := outputs s;
                      uuid_draws := uuid_draws s; log := log s |} in
     session (snd (serve (PostRemove r) s)) = Some h /\
     fst (serve (PostRemove r) s) = fst (serve (PostRemove r) cached) /\
     outputs (snd (serve (PostRemove r) s)) =
       outputs (snd (serve (PostRemove r) cached))) /\
  (forall h schedule threads s,
     session s = Some h ->
     Forall (settled h) threads ->
     snd (interleave schedule threads s) = s /\
     Forall (settled h) (fst (interleave schedule threads s))) /\
  (forall s,
     interleave [0; 0; 0; 0; 0] [AtTest] s =
       ([match fst (get_session s) with
         | Ok h => Returned (Some h)
         | Raise msg => Raised msg
         end], snd (get_session s))).
Proof.
  split; [exact get_session_first |].
  split; [exact get_session_cached |].
  split; [intros s h rt; apply session_kept_by_serve |].
  split.
  { intros dir rts.
    pose proof (loads_match_session_run rts (start dir) eq_refl) as H.
    unfold loads_match_session in H. rewrite H.
    destruct (session (snd (run rts (start dir)))); lia. }
  split; [intros r model s; reflexivity |].
  split.
  { intros r model s. unfold serve, view.
    now rewrite remove_bg_with_json_field. }
  split; [intros r s h image_bytes filename msg;
          apply serve_remove_on_cached_failure |].
  split; [intros r s h image_bytes filename rb img data png;
          apply serve_remove_on_cached_success |].
  split.
  { intros r s h Hs Hne.
    destruct (serve_batch_ok r s s h (get_session_cached s h Hs) Hne)
      as (entries & s2 & Hserve & Hall & _).
    exists entries. rewrite Hserve. split; [reflexivity |].
    intros i file Hfile.
    destruct (Forall2_lookup_l _ _ _ _ _ Hall Hfile) as (entry & Hentry & Hof).
    unfold entry_of in Hof.
    destruct (item_encoded h file) as [data | msg].
    - destruct Hof as (file_id & -> & _). now exists file_id.
    - now rewrite Hentry, Hof. }
  split; [intros r s h x; apply serve_remove_first |].
  split; [intros h schedule threads s; apply interleave_cached |].
  exact get_session_steps_agree.
Qed.
